(** * Islamic Finance Standards API: a shallow embedding of [main.py]

    The backend templates prompts from static reference data and proxies
    them to a hosted completion endpoint.  This development embeds

    - the JSON values the program manipulates and the Python operations it
      applies to them (subscripting, truthiness, comparison with a [str],
      iteration, f-string interpolation),
    - the trace lines it prints, each of which stdout may refuse,
    - [TogetherAIClient.generate_text],
    - the start-up block that loads (or bootstraps) the three data files,
    - [IslamicFinanceStandardsExplainer] and its three prompt templates,
    - the three POST endpoints,

    and proves the properties of the specification about them.

    Python [str] values are represented by their UTF-8 encoding, one
    [ascii] per byte. *)

From Stdlib Require Import String Ascii ZArith NArith List QArith DecimalString Lia.
From stdpp Require Import base gmap strings.
Import ListNotations.

Set Warnings "-register-all".
Local Open Scope Z_scope.

(** ** Strings *)

Definition nl : string := String (ascii_of_nat 10) EmptyString.

(** Decimal rendering of an [int], as f-string interpolation produces it. *)
Definition string_of_Z (n : Z) : string := NilZero.string_of_int (Z.to_int n).

(** [contains s t]: [s] occurs in [t] verbatim, as a contiguous substring. *)
Definition contains (s t : string) : Prop :=
  exists before after, t = before +:+ s +:+ after.

(** Boolean search for a substring, by testing a prefix at every position. *)
Fixpoint is_substring (s t : string) : bool :=
  String.prefix s t ||
  match t with
  | EmptyString => false
  | String _ t' => is_substring s t'
  end.

(** A byte of the form [10xxxxxx] continues the code point begun before it. *)
Definition is_continuation (c : ascii) : bool :=
  (N.land (N_of_ascii c) 192 =? 128)%N.

Definition starts_with_continuation (s : string) : bool :=
  match s with
  | EmptyString => false
  | String c _ => is_continuation c
  end.

(** The code points of a string, each as the string of its bytes: what
    iterating over a [str], or indexing it, yields. *)
Fixpoint code_points (s : string) : list string :=
  match s with
  | EmptyString => []
  | String c rest =>
      match starts_with_continuation rest, code_points rest with
      | true, g :: gs => String c g :: gs
      | _, gs => String c EmptyString :: gs
      end
  end.

Definition join (l : list string) : string :=
  fold_right String.append EmptyString l.

(** ** Python values and exceptions *)

Module Py.

(** The values [json.load] and [response.json()] produce.  A [dict] is the
    list of its items; a lookup takes the first item with the key.  A
    [float] is kept as its IEEE-754 bit pattern. *)
Inductive pyval : Type :=
| PNone
| PBool (b : bool)
| PInt (n : Z)
| PFloat (bits : Z)
| PStr (s : string)
| PList (l : list pyval)
| PDict (d : list (string * pyval)).

(** A subscript written in the program: a [str] literal or an [int] literal. *)
Inductive index : Type :=
| IStr (k : string)
| IInt (i : Z).

(** The exceptions that can reach an [except Exception] clause of the
    program.  [TypeError v] is raised by an operation that does not apply
    to the operand [v]; [KeyError k] by a [dict] without the key [k]. *)
Inductive exn : Type :=
| KeyError (key : index)
| IndexError
| TypeError (operand : pyval)
| FileNotFoundError (path : string)
| JSONDecodeError (msg : string)
| RequestException (msg : string)
| UnicodeEncodeError (msg : string)
| HTTPException (status_code : Z) (detail : string).

(** What the interpreter supplies and the program only calls: [str(e)] on
    an exception and [str(v)] on a value that is not a [str]. *)
Class Runtime : Type := {
  str_exn : exn -> string;
  str_val : pyval -> string
}.

Fixpoint dict_get (k : string) (d : list (string * pyval)) : option pyval :=
  match d with
  | [] => None
  | (k', v) :: d' => if String.eqb k' k then Some v else dict_get k d'
  end.

(** [l[i]] on a sequence: negative indices count from the end. *)
Definition seq_index {A : Type} (l : list A) (i : Z) : option A :=
  let n := Z.of_nat (length l) in
  if 0 <=? i then nth_error l (Z.to_nat i)
  else if 0 <=? n + i then nth_error l (Z.to_nat (n + i))
  else None.

(** [v[k]]. *)
Definition subscript (v : pyval) (k : index) : exn + pyval :=
  match v, k with
  | PDict d, IStr key =>
      match dict_get key d with
      | Some x => inr x
      | None => inl (KeyError k)
      end
  | PDict d, IInt i => inl (KeyError k)
  | PList l, IInt i =>
      match seq_index l i with
      | Some x => inr x
      | None => inl IndexError
      end
  | PStr s, IInt i =>
      match seq_index (code_points s) i with
      | Some c => inr (PStr c)
      | None => inl IndexError
      end
  | _, _ => inl (TypeError v)
  end.

(** [v[:n]] for [0 <= n]: defined on [str] and [list] only. *)
Definition slice_to (v : pyval) (n : nat) : exn + pyval :=
  match v with
  | PStr s => inr (PStr (join (firstn n (code_points s))))
  | PList l => inr (PList (firstn n l))
  | _ => inl (TypeError v)
  end.

(** Truth value of [v], as [if not v] tests it. *)
Definition truthy (v : pyval) : bool :=
  match v with
  | PNone => false
  | PBool b => b
  | PInt n => negb (n =? 0)
  | PFloat bits => negb (Z.land bits (2 ^ 63 - 1) =? 0)
  | PStr s => negb (String.eqb s EmptyString)
  | PList l => match l with [] => false | _ => true end
  | PDict d => match d with [] => false | _ => true end
  end.

(** [v == s] for a [str] [s]: only an equal [str] compares equal. *)
Definition eq_str (v : pyval) (s : string) : bool :=
  match v with
  | PStr t => String.eqb t s
  | _ => false
  end.

(** The elements [for x in v] runs through. *)
Definition iter (v : pyval) : exn + list pyval :=
  match v with
  | PList l => inr l
  | PDict d => inr (map (fun kv => PStr (fst kv)) d)
  | PStr s => inr (map PStr (code_points s))
  | _ => inl (TypeError v)
  end.

(** [f"{v}"]: a [str] is inserted as it is, any other value through [str]. *)
Definition format_value {RT : Runtime} (v : pyval) : string :=
  match v with
  | PStr s => s
  | _ => str_val v
  end.

End Py.
Export Py.

(** ** Effects: outbound HTTP calls and exceptions *)

(** The JSON body of a completion request. *)
Record completion_data : Type := {
  data_model : string;
  data_prompt : string;
  data_max_tokens : Z;
  data_temperature : Q
}.

(** One [requests.post(url, headers=..., json=...)]. *)
Record http_request : Type := {
  req_url : string;
  req_headers : list (string * string);
  req_json : completion_data
}.

(** What the program reads of a [requests.Response]: the status, the body
    text, and what calling [.json()] gives (a value, or the exception it
    raises on a body that is not JSON). *)
Record response : Type := {
  status_code : Z;
  text : string;
  json : exn + pyval
}.

(** The completion endpoint and the transport in front of it: given the
    requests sent so far and the next one, either [requests.post] raises
    or a response comes back. *)
Definition network : Type := list http_request -> http_request -> exn + response.

(** A computation over a state of type [S] that may raise. *)
Definition ST (S A : Type) : Type := S -> (exn + A) * S.

Definition ret {S A : Type} (a : A) : ST S A := fun s => (inr a, s).

Definition raise {S A : Type} (e : exn) : ST S A := fun s => (inl e, s).

Definition bind {S A B : Type} (m : ST S A) (k : A -> ST S B) : ST S B :=
  fun s =>
    match m s with
    | (inr a, s') => k a s'
    | (inl e, s') => (inl e, s')
    end.

(** [try: body  except E as e: handler e], where [catches] tells the
    exceptions of class [E]. *)
Definition try_except_on {S A : Type} (catches : exn -> bool)
    (body : ST S A) (handler : exn -> ST S A) : ST S A :=
  fun s =>
    match body s with
    | (inl e, s') => if catches e then handler e s' else (inl e, s')
    | (inr a, s') => (inr a, s')
    end.

(** [except Exception]: every exception of the model is one. *)
Definition try_except {S A : Type} (body : ST S A) (handler : exn -> ST S A)
    : ST S A :=
  try_except_on (fun _ => true) body handler.

(** A pure operation that returns or raises. *)
Definition lift {S A : Type} (r : exn + A) : ST S A := fun s => (r, s).

(** [print(line)]: the line goes to stdout, or writing it raises (the
    stream cannot encode the text, or is closed).  A console tells, for
    each line, the exception that writing it raises, if any; what is
    written is not kept. *)
Class Console : Type := print_raises : string -> option exn.

Definition print {CO : Console} {S : Type} (line : string) : ST S unit :=
  fun s =>
    (match print_raises line with
     | Some e => inl e
     | None => inr tt
     end, s).

(** Request handling runs over the log of the requests posted, oldest
    first. *)
Abbreviation M := (ST (list http_request)).

Definition requests_post (net : network) (url : string)
    (headers : list (string * string)) (data : completion_data) : M response :=
  fun log =>
    let rq := {| req_url := url; req_headers := headers; req_json := data |} in
    (net log rq, log ++ [rq]).

Declare Scope py_scope.
Delimit Scope py_scope with py.
Notation "'let!' x ':=' m 'in' k" := (bind m (fun x => k))
  (at level 10, x name, m at level 200, k at level 200) : py_scope.
Local Open Scope py_scope.

(** The interface the explainer expects of its [ai_client]: any object
    with a [generate_text(prompt, max_tokens, temperature)] method. *)
Class GenerationClient (C : Type) : Type :=
  generate_text : C -> string -> Z -> Q -> M pyval.

(** ** The Together AI client *)

Module TogetherAIClient.

Record t : Type := {
  api_key : string;
  model : string;
  base_url : string;
  headers : list (string * string)
}.

Definition default_model : string := "mistralai/Mistral-7B-Instruct-v0.2".

(** [__init__]. *)
Definition init (api_key model : string) : t := {|
  api_key := api_key;
  model := model;
  base_url := "https://api.together.xyz/v1/completions";
  headers := [("Authorization", "Bearer " +:+ api_key);
              ("Content-Type", "application/json")]
|}.

Section Client.
Context {RT : Runtime} {CO : Console} (net : network).

(** [result["choices"][0]["text"]]. *)
Definition first_choice_text (result : pyval) : exn + pyval :=
  match subscript result (IStr "choices") with
  | inl e => inl e
  | inr choices =>
      match subscript choices (IInt 0) with
      | inl e => inl e
      | inr choice => subscript choice (IStr "text")
      end
  end.

(** [s[:100]] of a [str]. *)
Definition first_100 (s : string) : string :=
  join (firstn 100 (code_points s)).

Definition generate_text (self : t) (prompt : string) (max_tokens : Z)
    (temperature : Q) : M pyval :=
  let data := {| data_model := model self;
                 data_prompt := prompt;
                 data_max_tokens := max_tokens;
                 data_temperature := temperature |} in
  try_except
    (let! _ :=
       print ("Sending request to Together AI with model: " +:+ model self) in
     let! _ := print ("Prompt: " +:+ first_100 prompt +:+ "...") in
     let! response := requests_post net (base_url self) (headers self) data in
     if negb (status_code response =? 200) then
       let error_msg := "Error from Together AI API: " +:+ text response in
       let! _ := print error_msg in
       ret (PStr ("Error: " +:+ string_of_Z (status_code response)))
     else
       let! result := lift (json response) in
       let! generated := lift (first_choice_text result) in
       let! shown := lift (slice_to generated 100) in
       let! _ :=
         print ("Response received. First few characters: "
                +:+ format_value shown +:+ "...") in
       lift (first_choice_text result))
    (fun e =>
       let! _ :=
         print ("Exception when calling Together AI API: " +:+ str_exn e) in
       ret (PStr ("Error: " +:+ str_exn e))).

#[export] Instance client : GenerationClient t := generate_text.

End Client.
End TogetherAIClient.

(** ** Loading the reference data at start-up *)

Module Store.

(** A file is named by its directory and its name in it:
    ["data/standards.json"] is [{| dir := "data"; name := "standards.json" |}]. *)
Record path : Type := { dir : string; name : string }.

(** The directories below the working directory, each with the text of
    its files. *)
Abbreviation filesystem := (gmap string (gmap string string)).

Definition path_str (p : path) : string := dir p +:+ "/" +:+ name p.

Definition file_content (fs : filesystem) (p : path) : option string :=
  match fs !! dir p with
  | Some files => files !! name p
  | None => None
  end.

(** [open(p, "r").read()]. *)
Definition open_read (p : path) : ST filesystem string :=
  fun fs =>
    match file_content fs p with
    | Some content => (inr content, fs)
    | None => (inl (FileNotFoundError (path_str p)), fs)
    end.

(** [open(p, "w").write(content)]: creates or truncates the file; the
    directory has to exist. *)
Definition open_write (p : path) (content : string) : ST filesystem unit :=
  fun fs =>
    match fs !! dir p with
    | Some files => (inr tt, <[dir p := <[name p := content]> files]> fs)
    | None => (inl (FileNotFoundError (path_str p)), fs)
    end.

(** [os.makedirs(d, exist_ok=True)]. *)
Definition makedirs (d : string) : ST filesystem unit :=
  fun fs =>
    match fs !! d with
    | Some _ => (inr tt, fs)
    | None => (inr tt, <[d := ∅]> fs)
    end.

Definition is_FileNotFoundError (e : exn) : bool :=
  match e with
  | FileNotFoundError _ => true
  | _ => false
  end.

(** The three module-level variables the endpoints read. *)
Record data : Type := {
  standards : pyval;
  examples : pyval;
  glossary : pyval
}.

Definition standards_json : path := {| dir := "data"; name := "standards.json" |}.
Definition examples_json : path := {| dir := "data"; name := "examples.json" |}.
Definition glossary_json : path := {| dir := "data"; name := "glossary.json" |}.

Section Load.
(** [json.loads] and [json.dumps] of the standard library. *)
Variable json_loads : string -> exn + pyval.
Variable json_dumps : pyval -> string.

(** [with open(p, "r") as f: json.load(f)]. *)
Definition json_load (p : path) : ST filesystem pyval :=
  let! content := open_read p in
  lift (json_loads content).

(** [with open(p, "w") as f: json.dump(v, f)]. *)
Definition json_dump (v : pyval) (p : path) : ST filesystem unit :=
  open_write p (json_dumps v).

(** The module-level [try ... except FileNotFoundError] block. *)
Definition load : ST filesystem data :=
  try_except_on is_FileNotFoundError
    (let! standards := json_load standards_json in
     let! examples := json_load examples_json in
     let! glossary := json_load glossary_json in
     ret {| standards := standards; examples := examples; glossary := glossary |})
    (fun _ =>
       let standards := PList [] in
       let examples := PList [] in
       let glossary := PList [] in
       let! _ := makedirs "data" in
       let! _ := json_dump standards standards_json in
       let! _ := json_dump examples examples_json in
       let! _ := json_dump glossary glossary_json in
       ret {| standards := standards; examples := examples; glossary := glossary |}).

End Load.
End Store.

(** ** The explainer: prompt templates and sampling parameters *)

Module IslamicFinanceStandardsExplainer.

Record t (C : Type) : Type := { ai_client : C }.
Arguments ai_client {C} _.

(** The six f-string templates, with the interpolated texts as arguments. *)

Definition explanation_prompt_en (standard_title scenario : string) : string :=
  "You are an expert in Islamic Finance standards, particularly AAOIFI standards." +:+ nl +:+
  "Explain the accounting treatment for the given scenario in simple terms that a non-specialist can understand." +:+ nl +:+
  "Use step-by-step explanations and include the journal entries where appropriate." +:+ nl +:+
  nl +:+
  "Standard: " +:+ standard_title +:+ nl +:+
  nl +:+
  "Scenario: " +:+ scenario +:+ nl +:+
  nl +:+
  "Please explain:" +:+ nl +:+
  "1. What this standard is about" +:+ nl +:+
  "2. How to account for this transaction step-by-step" +:+ nl +:+
  "3. The proper journal entries" +:+ nl +:+
  "4. Why this method complies with Islamic finance principles" +:+ nl.

Definition explanation_prompt_ar (standard_title scenario : string) : string :=
  "أنت خبير في معايير التمويل الإسلامي، خاصة معايير هيئة المحاسبة والمراجعة للمؤسسات المالية الإسلامية." +:+ nl +:+
  "قم بشرح المعالجة المحاسبية للسيناريو المعطى بمصطلحات بسيطة يمكن لغير المتخصص فهمها." +:+ nl +:+
  "استخدم شرحًا خطوة بخطوة وقم بتضمين قيود اليومية حيثما كان ذلك مناسبًا." +:+ nl +:+
  nl +:+
  "المعيار: " +:+ standard_title +:+ nl +:+
  nl +:+
  "السيناريو: " +:+ scenario +:+ nl +:+
  nl +:+
  "يرجى شرح:" +:+ nl +:+
  "1. ما هو هذا المعيار" +:+ nl +:+
  "2. كيفية المحاسبة عن هذه المعاملة خطوة بخطوة" +:+ nl +:+
  "3. قيود اليومية المناسبة" +:+ nl +:+
  "4. لماذا تتوافق هذه الطريقة مع مبادئ التمويل الإسلامي" +:+ nl.

Definition feedback_prompt_en (scenario user_solution expert_solution : string) : string :=
  "You are an expert in Islamic Finance standards. Compare the user's solution to an expert solution and provide feedback." +:+ nl +:+
  nl +:+
  "Scenario: " +:+ scenario +:+ nl +:+
  nl +:+
  "User's solution:" +:+ nl +:+
  user_solution +:+ nl +:+
  nl +:+
  "Expert solution:" +:+ nl +:+
  expert_solution +:+ nl +:+
  nl +:+
  "Provide feedback on the user's solution. Highlight what they got correct and what needs improvement." +:+ nl +:+
  "Rate their understanding on a scale of 1-10." +:+ nl.

Definition feedback_prompt_ar (scenario user_solution expert_solution : string) : string :=
  "أنت خبير في معايير التمويل الإسلامي. قارن حل المستخدم بحل الخبير وقدم تعليقات." +:+ nl +:+
  nl +:+
  "السيناريو: " +:+ scenario +:+ nl +:+
  nl +:+
  "حل المستخدم:" +:+ nl +:+
  user_solution +:+ nl +:+
  nl +:+
  "حل الخبير:" +:+ nl +:+
  expert_solution +:+ nl +:+
  nl +:+
  "قدم تعليقات على حل المستخدم. سلط الضوء على ما أصابوه بشكل صحيح وما يحتاج إلى تحسين." +:+ nl +:+
  "قيّم فهمهم على مقياس من 1 إلى 10." +:+ nl.

Definition question_prompt_en (question : string) : string :=
  "You are an expert in Islamic Finance standards, particularly AAOIFI standards." +:+ nl +:+
  "The user has asked the following question about Islamic Finance:" +:+ nl +:+
  nl +:+
  question +:+ nl +:+
  nl +:+
  "Provide a clear, detailed answer using your knowledge of Islamic finance principles and standards." +:+ nl +:+
  "Reference specific AAOIFI standards when relevant. Make your explanation easy for non-specialists to understand." +:+ nl.

Definition question_prompt_ar (question : string) : string :=
  "أنت خبير في معايير التمويل الإسلامي، خاصة معايير هيئة المحاسبة والمراجعة للمؤسسات المالية الإسلامية." +:+ nl +:+
  "طرح المستخدم السؤال التالي حول التمويل الإسلامي:" +:+ nl +:+
  nl +:+
  question +:+ nl +:+
  nl +:+
  "قدم إجابة واضحة ومفصلة باستخدام معرفتك بمبادئ ومعايير التمويل الإسلامي." +:+ nl +:+
  "أشر إلى معايير هيئة المحاسبة والمراجعة للمؤسسات المالية الإسلامية المحددة عندما يكون ذلك ذا صلة. اجعل شرحك سهلاً لغير المتخصصين لفهمه." +:+ nl.

Section Explainer.
Context {RT : Runtime} {C : Type} {GC : GenerationClient C}.

Definition explanation_prompt (standard_title scenario : pyval)
    (language : string) : string :=
  if String.eqb language "English" then
    explanation_prompt_en (format_value standard_title) (format_value scenario)
  else
    explanation_prompt_ar (format_value standard_title) (format_value scenario).

Definition feedback_prompt (scenario user_solution expert_solution : pyval)
    (language : string) : string :=
  if String.eqb language "English" then
    feedback_prompt_en (format_value scenario) (format_value user_solution)
      (format_value expert_solution)
  else
    feedback_prompt_ar (format_value scenario) (format_value user_solution)
      (format_value expert_solution).

Definition question_prompt (question : pyval) (language : string) : string :=
  if String.eqb language "English" then question_prompt_en (format_value question)
  else question_prompt_ar (format_value question).

Definition get_explanation (self : t C) (standard : string)
    (standard_title scenario : pyval) (language : string) : M pyval :=
  let prompt := explanation_prompt standard_title scenario language in
  generate_text (ai_client self) prompt 2048 (5 # 10)%Q.

Definition get_feedback (self : t C)
    (scenario user_solution expert_solution : pyval) (language : string)
    : M pyval :=
  let prompt := feedback_prompt scenario user_solution expert_solution language in
  generate_text (ai_client self) prompt 1024 (5 # 10)%Q.

Definition ask_custom_question (self : t C) (question : pyval)
    (language : string) : M pyval :=
  let prompt := question_prompt question language in
  generate_text (ai_client self) prompt 1536 (7 # 10)%Q.

End Explainer.
End IslamicFinanceStandardsExplainer.

(** ** The endpoints *)

Module ExplanationRequest.
Record t : Type := { standard_id : string; scenario : string; language : string }.
End ExplanationRequest.

Module FeedbackRequest.
Record t : Type := { standard_id : string; user_solution : string; language : string }.
End FeedbackRequest.

Module QuestionRequest.
Record t : Type := { question : string; language : string }.
End QuestionRequest.

Module Api.

(** [next((x for x in items if x[key] == wanted), None)] once [items] is
    being iterated: the generator stops at the first element that passes
    the test, and an element that cannot be subscripted raises. *)
Fixpoint first_match (key wanted : string) (items : list pyval) : exn + pyval :=
  match items with
  | [] => inr PNone
  | x :: rest =>
      match subscript x (IStr key) with
      | inl e => inl e
      | inr v => if eq_str v wanted then inr x else first_match key wanted rest
      end
  end.

(** [next((x for x in coll if x[key] == wanted), None)]. *)
Definition find_by (key wanted : string) (coll : pyval) : exn + pyval :=
  match iter coll with
  | inl e => inl e
  | inr items => first_match key wanted items
  end.

(** [GET /]. *)
Definition read_root : pyval :=
  PDict [("message", PStr "Islamic Finance Standards API")].

(** [GET /api/standards], [GET /api/examples] and [GET /api/glossary]
    return the module-level variable as it was loaded. *)
Definition get_standards (db : Store.data) : pyval := Store.standards db.
Definition get_examples (db : Store.data) : pyval := Store.examples db.
Definition get_glossary (db : Store.data) : pyval := Store.glossary db.

Section Endpoints.
Context {RT : Runtime} {CO : Console} {C : Type} {GC : GenerationClient C}.
(** The module-level [explainer]. *)
Variable explainer : IslamicFinanceStandardsExplainer.t C.

Definition title_key (language : string) : string :=
  if String.eqb language "English" then "title_en" else "title_ar".

Definition scenario_key (language : string) : string :=
  if String.eqb language "English" then "scenario_en" else "scenario_ar".

(** The endpoints read the module-level [standards], [examples] and
    [glossary]; they are handed to each of them as [db]. *)

(** [POST /api/explanation]. *)
Definition get_explanation (db : Store.data) (request : ExplanationRequest.t)
    : M pyval :=
  try_except
    (let! standard :=
       lift (find_by "id" (ExplanationRequest.standard_id request)
               (Store.standards db)) in
     if negb (truthy standard) then
       raise (HTTPException 404 "Standard not found")
     else
     let! example :=
       lift (find_by "standard_id" (ExplanationRequest.standard_id request)
               (Store.examples db)) in
     if negb (truthy example) then
       raise (HTTPException 404 "Example not found")
     else
     let title_key := title_key (ExplanationRequest.language request) in
     let! standard_title := lift (subscript standard (IStr title_key)) in
     let! explanation :=
       IslamicFinanceStandardsExplainer.get_explanation explainer
         (ExplanationRequest.standard_id request)
         standard_title
         (PStr (ExplanationRequest.scenario request))
         (ExplanationRequest.language request) in
     ret (PDict [("explanation", explanation)]))
    (fun e =>
       let! _ := print ("Error in explanation endpoint: " +:+ str_exn e) in
       raise (HTTPException 500 (str_exn e))).

(** [POST /api/feedback]. *)
Definition get_feedback (db : Store.data) (request : FeedbackRequest.t)
    : M pyval :=
  try_except
    (let! standard :=
       lift (find_by "id" (FeedbackRequest.standard_id request)
               (Store.standards db)) in
     if negb (truthy standard) then
       raise (HTTPException 404 "Standard not found")
     else
     let! example :=
       lift (find_by "standard_id" (FeedbackRequest.standard_id request)
               (Store.examples db)) in
     if negb (truthy example) then
       raise (HTTPException 404 "Example not found")
     else
     let scenario_key := scenario_key (FeedbackRequest.language request) in
     let title_key := title_key (FeedbackRequest.language request) in
     let! standard_title := lift (subscript standard (IStr title_key)) in
     let! scenario := lift (subscript example (IStr scenario_key)) in
     let! expert_solution :=
       IslamicFinanceStandardsExplainer.get_explanation explainer
         (FeedbackRequest.standard_id request)
         standard_title
         scenario
         (FeedbackRequest.language request) in
     let! scenario' := lift (subscript example (IStr scenario_key)) in
     let! feedback :=
       IslamicFinanceStandardsExplainer.get_feedback explainer
         scenario'
         (PStr (FeedbackRequest.user_solution request))
         expert_solution
         (FeedbackRequest.language request) in
     ret (PDict [("feedback", feedback); ("expert_solution", expert_solution)]))
    (fun e =>
       let! _ := print ("Error in feedback endpoint: " +:+ str_exn e) in
       raise (HTTPException 500 (str_exn e))).

(** [POST /api/ask]. *)
Definition ask_question (db : Store.data) (request : QuestionRequest.t)
    : M pyval :=
  try_except
    (let! answer :=
       IslamicFinanceStandardsExplainer.ask_custom_question explainer
         (PStr (QuestionRequest.question request))
         (QuestionRequest.language request) in
     ret (PDict [("answer", answer)]))
    (fun e =>
       let! _ := print ("Error in ask endpoint: " +:+ str_exn e) in
       raise (HTTPException 500 (str_exn e))).

End Endpoints.
End Api.

(** ** The module-level code, in the order it runs at import *)

Module Main.

(** What the module has bound once it is imported: the reference data,
    the client and the explainer built on it. *)
Record app : Type := {
  data : Store.data;
  ai_client : TogetherAIClient.t;
  explainer : IslamicFinanceStandardsExplainer.t TogetherAIClient.t
}.

(** [TOGETHER_API_KEY = os.getenv("TOGETHER_API_KEY")] followed by
    [if not TOGETHER_API_KEY: raise HTTPException(...)]; [environ] is the
    process environment after [load_dotenv()]. *)
Definition require_api_key (environ : gmap string string) : exn + string :=
  let TOGETHER_API_KEY :=
    match environ !! "TOGETHER_API_KEY" with
    | Some value => PStr value
    | None => PNone
    end in
  if negb (truthy TOGETHER_API_KEY) then
    inl (HTTPException 500 "Together AI API key not found")
  else
    match TOGETHER_API_KEY with
    | PStr key => inr key
    | other => inl (TypeError other)
    end.

Section Startup.
Variable json_loads : string -> exn + pyval.
Variable json_dumps : pyval -> string.

(** The key is checked first, then the data files are loaded (or
    bootstrapped), then the client and the explainer are built. *)
Definition startup (environ : gmap string string) : ST Store.filesystem app :=
  let! key := lift (require_api_key environ) in
  let! loaded := Store.load json_loads json_dumps in
  let ai_client := TogetherAIClient.init key TogetherAIClient.default_model in
  let explainer := {| IslamicFinanceStandardsExplainer.ai_client := ai_client |} in
  ret {| data := loaded; ai_client := ai_client; explainer := explainer |}.

End Startup.
End Main.

(** * Vocabulary of the properties *)

(** A stdout that takes every line.  Where a property below names no
    console, it is stated for this one: the trace lines are printed. *)
#[export] Instance stdout : Console := fun _ => None.

(** The console takes every line. *)
Definition accepts_all (CO : Console) : Prop :=
  forall line, print_raises line = None.

(** What the [try] block takes from a 200 response when its trace line is
    printed: the body is parsed, the first choice's text is read and
    sliced for the trace line, then read again to be returned. *)
Definition read_completion (resp : response) : exn + pyval :=
  match json resp with
  | inl e => inl e
  | inr result =>
      match TogetherAIClient.first_choice_text result with
      | inl e => inl e
      | inr generated =>
          match slice_to generated 100 with
          | inl e => inl e
          | inr _ => TogetherAIClient.first_choice_text result
          end
      end
  end.

(** The request [generate_text] posts. *)
Definition request_of (self : TogetherAIClient.t) (prompt : string)
    (max_tokens : Z) (temperature : Q) : http_request := {|
  req_url := TogetherAIClient.base_url self;
  req_headers := TogetherAIClient.headers self;
  req_json := {| data_model := TogetherAIClient.model self;
                 data_prompt := prompt;
                 data_max_tokens := max_tokens;
                 data_temperature := temperature |}
|}.

(** The value [generate_text] returns, by the way the call went. *)
Definition completion_of {RT : Runtime} (outcome : exn + response) : pyval :=
  match outcome with
  | inl e => PStr ("Error: " +:+ str_exn e)
  | inr resp =>
      if status_code resp =? 200 then
        match read_completion resp with
        | inl e => PStr ("Error: " +:+ str_exn e)
        | inr v => v
        end
      else PStr ("Error: " +:+ string_of_Z (status_code resp))
  end.

(** [rq] carries the sampling parameters [max_tokens] and [temperature]. *)
Definition sampled_with (max_tokens : Z) (temperature : Q) (rq : http_request)
    : Prop :=
  data_max_tokens (req_json rq) = max_tokens
  /\ data_temperature (req_json rq) = temperature.

(** Three empty collections. *)
Definition empty_data : Store.data :=
  {| Store.standards := PList [];
     Store.examples := PList [];
     Store.glossary := PList [] |}.

(** How an endpoint turns the outcome of its last generation call into its
    own: the text goes under [key]; an exception becomes a 500. *)
Definition respond_with {RT : Runtime} (key : string)
    (r : (exn + pyval) * list http_request) : (exn + pyval) * list http_request :=
  match r with
  | (inr v, log') => (inr (PDict [(key, v)]), log')
  | (inl e, log') => (inl (HTTPException 500 (str_exn e)), log')
  end.

(** The failure a client sees after a lookup miss: the 404 raised inside
    the [try] is caught by [except Exception] and raised again as a 500. *)
Definition miss {RT : Runtime} (what : string) : exn :=
  HTTPException 500 (str_exn (HTTPException 404 what)).

Definition first_byte (s : string) : option ascii :=
  match s with
  | EmptyString => None
  | String c _ => Some c
  end.

(** [y] is an entry whose [key] can be read and is not [wanted]. *)
Definition other_entry (key wanted : string) (y : pyval) : Prop :=
  exists w, subscript y (IStr key) = inr w /\ eq_str w wanted = false.

(** [x] is an entry whose [key] is [wanted]. *)
Definition entry_for (key wanted : string) (x : pyval) : Prop :=
  exists v, subscript x (IStr key) = inr v /\ eq_str v wanted = true.

(** ** Fixtures for concrete runs *)

Module Fixture.

(** A runtime whose [str] is simple enough to read in a result. *)
Definition str_exn (e : exn) : string :=
  match e with
  | KeyError (IStr k) => "'" +:+ k +:+ "'"
  | KeyError (IInt i) => string_of_Z i
  | IndexError => "index out of range"
  | TypeError _ => "unsupported operand"
  | FileNotFoundError p => "No such file or directory: '" +:+ p +:+ "'"
  | JSONDecodeError msg => msg
  | RequestException msg => msg
  | UnicodeEncodeError msg => msg
  | HTTPException code detail => string_of_Z code +:+ ": " +:+ detail
  end.

Definition str_val (v : pyval) : string :=
  match v with
  | PNone => "None"
  | PBool true => "True"
  | PBool false => "False"
  | PInt n => string_of_Z n
  | _ => "<value>"
  end.

Definition runtime : Runtime := {| Py.str_exn := str_exn; Py.str_val := str_val |}.

(** A network that answers every request the same way. *)
Definition always (outcome : exn + response) : network := fun _ _ => outcome.

(** A 200 response whose body is [{"choices":[{"text": t}]}]. *)
Definition completion (t : string) : response := {|
  status_code := 200;
  text := "{}";
  json := inr (PDict [("choices", PList [PDict [("text", PStr t)]])])
|}.

Definition client : TogetherAIClient.t :=
  TogetherAIClient.init "secret" TogetherAIClient.default_model.

Definition explainer : IslamicFinanceStandardsExplainer.t TogetherAIClient.t :=
  {| IslamicFinanceStandardsExplainer.ai_client := client |}.

(** A test double for the client: it answers every call with [reply] and
    posts nothing. *)
Record stub : Type := { reply : pyval }.

Definition stub_client : GenerationClient stub :=
  fun self _ _ _ => ret (reply self).

(** Two standards, the first with a worked example, the second without. *)
Definition murabaha : pyval :=
  PDict [("id", PStr "FAS-28");
         ("title_en", PStr "Murabaha and Other Deferred Payment Sales");
         ("title_ar", PStr "المرابحة والبيوع الآجلة")].

Definition ijarah : pyval :=
  PDict [("id", PStr "FAS-32");
         ("title_en", PStr "Ijarah");
         ("title_ar", PStr "الإجارة")].

Definition stored_scenario : string :=
  "A bank buys a vehicle for 100,000 and sells it to a client for 120,000 in instalments.".

Definition murabaha_example : pyval :=
  PDict [("standard_id", PStr "FAS-28");
         ("scenario_en", PStr stored_scenario);
         ("scenario_ar", PStr "يشتري البنك مركبة ثم يبيعها للعميل بالتقسيط.")].

Definition db : Store.data := {|
  Store.standards := PList [murabaha; ijarah];
  Store.examples := PList [murabaha_example];
  Store.glossary := PList []
|}.

(** A stand-in for [json.dumps] and [json.loads] that is right on the one
    value the bootstrap dumps, the empty list, and on the text it is
    dumped to. *)
Definition json_dumps (v : pyval) : string :=
  match v with
  | PList [] => "[]"
  | _ => "null"
  end.

Definition json_loads (s : string) : exn + pyval :=
  if String.eqb s "[]" then inr (PList []) else inl (JSONDecodeError s).

End Fixture.

(** Requests and network behaviours for the runs. *)

Module Run.
(** Every call to the endpoint is answered with the completion ["ok"]. *)
Definition net : network := Fixture.always (inr (Fixture.completion "ok")).

(** Every call to the endpoint is answered with the status 503. *)
Definition down : network :=
  Fixture.always (inr {| status_code := 503; text := "unavailable";
                         json := inl (JSONDecodeError "unavailable") |}).

Definition explanation_request : ExplanationRequest.t := {|
  ExplanationRequest.standard_id := "FAS-28";
  ExplanationRequest.scenario := "A lessor rents out equipment for five years.";
  ExplanationRequest.language := "English"
|}.

Definition feedback_request : FeedbackRequest.t := {|
  FeedbackRequest.standard_id := "FAS-28";
  FeedbackRequest.user_solution := "Recognise the profit at the date of sale.";
  FeedbackRequest.language := "Arabic"
|}.

Definition title_en : pyval := PStr "Murabaha and Other Deferred Payment Sales".
Definition title_ar : pyval := PStr "المرابحة والبيوع الآجلة".
Definition scenario_ar : pyval :=
  PStr "يشتري البنك مركبة ثم يبيعها للعميل بالتقسيط.".



End Run.

(** [p] is on disk and its text parses. *)
Definition readable (json_loads : string -> exn + pyval)
    (fs : Store.filesystem) (p : Store.path) : Prop :=
  exists content v,
    Store.file_content fs p = Some content /\ json_loads content = inr v.

(** [p] is on disk and parsing its text raises [e]. *)
Definition malformed (json_loads : string -> exn + pyval)
    (fs : Store.filesystem) (p : Store.path) (e : exn) : Prop :=
  exists content,
    Store.file_content fs p = Some content /\ json_loads content = inl e.

(** [p] is one of the three data files. *)
Definition is_data_file (p : Store.path) : Prop :=
  p = Store.standards_json \/ p = Store.examples_json \/ p = Store.glossary_json.

(** What the [try] block of the loader reads: the three documents in
    order, stopping at the first file that is missing or does not parse. *)
Definition read_all (json_loads : string -> exn + pyval)
    (fs : Store.filesystem) : exn + Store.data :=
  let read p :=
    match Store.file_content fs p with
    | None => inl (FileNotFoundError (Store.path_str p))
    | Some content => json_loads content
    end in
  match read Store.standards_json with
  | inl e => inl e
  | inr standards =>
      match read Store.examples_json with
      | inl e => inl e
      | inr examples =>
          match read Store.glossary_json with
          | inl e => inl e
          | inr glossary =>
              inr {| Store.standards := standards;
                     Store.examples := examples;
                     Store.glossary := glossary |}
          end
      end
  end.

(** The disk after the [except] branch of the loader: [data/] exists and
    the three files hold [document]; nothing else has changed. *)
Definition bootstrapped (document : string) (fs : Store.filesystem)
    : Store.filesystem :=
  <["data" := <["glossary.json" := document]>
                (<["examples.json" := document]>
                   (<["standards.json" := document]>
                      (default ∅ (fs !! "data"))))]> fs.

(** Disks and a [json.loads] that knows the documents on them. *)
Module Disk.

Definition json_loads (s : string) : exn + pyval :=
  if String.eqb s "[]" then inr (PList [])
  else if String.eqb s "[28, 32]" then inr (PList [PInt 28; PInt 32])
  else if String.eqb s "[28]" then inr (PList [PInt 28])
  else if String.eqb s "{}" then inr (PDict [])
  else inl (JSONDecodeError s).

Definition notes : Store.path :=
  {| Store.dir := "data"; Store.name := "notes.txt" |}.

(** [data/] holds the three files. *)
Definition complete : Store.filesystem :=
  {[ "data" := {[ "standards.json" := "[28, 32]";
                  "examples.json" := "[28]";
                  "glossary.json" := "{}" ]} ]}.

(** [data/] holds standards and some notes, but no examples. *)
Definition partial : Store.filesystem :=
  {[ "data" := {[ "standards.json" := "[28, 32]";
                  "notes.txt" := "keep me" ]} ]}.

(** [data/standards.json] is cut short. *)
Definition broken : Store.filesystem :=
  {[ "data" := {[ "standards.json" := "[28, " ]} ]}.

Definition environ : gmap string string := {[ "TOGETHER_API_KEY" := "secret" ]}.



Definition ijarah_explanation : ExplanationRequest.t := {|
  ExplanationRequest.standard_id := "FAS-32";
  ExplanationRequest.scenario := "A lessor rents out equipment for five years.";
  ExplanationRequest.language := "English"
|}.

Definition ijarah_feedback : FeedbackRequest.t := {|
  FeedbackRequest.standard_id := "FAS-32";
  FeedbackRequest.user_solution := "Expense the rentals.";
  FeedbackRequest.language := "English"
|}.

Definition question : QuestionRequest.t := {|
  QuestionRequest.question := "What is Murabaha?";
  QuestionRequest.language := "English"
|}.


End Disk.

(** Corner cases: a stdout that encodes ASCII only, answers in Arabic, a
    store whose entries have the English fields only, a client that
    raises. *)
Module Corner.

Fixpoint all_ascii (s : string) : bool :=
  match s with
  | EmptyString => true
  | String c rest => (N_of_ascii c <? 128)%N && all_ascii rest
  end.

(** A stdout with the [ascii] codec: a line with any other character is
    refused with a [UnicodeEncodeError]. *)
Definition ascii_only : Console :=
  fun line =>
    if all_ascii line then None
    else Some (UnicodeEncodeError "'ascii' codec can't encode characters").

(** A 503 whose body is in Arabic. *)
Definition unavailable : response := {|
  status_code := 503;
  text := "الخدمة غير متاحة";
  json := inl (JSONDecodeError "Expecting value")
|}.

Definition arabic_text : string := "المرابحة بيع بثمن مؤجل".


(** A client whose every call raises. *)
Definition refusing : GenerationClient Fixture.stub :=
  fun _ _ _ _ => raise (RequestException "connection refused").

End Corner.

(** * Properties *)

(** ** Substrings *)

Lemma append_nil_l (a : string) : EmptyString +:+ a = a.
Proof. reflexivity. Qed.

Lemma append_cons (x : ascii) (a b : string) :
  String x a +:+ b = String x (a +:+ b).
Proof. reflexivity. Qed.

Lemma append_assoc (a b c : string) : (a +:+ b) +:+ c = a +:+ b +:+ c.
Proof.
  induction a as [|x a' IH]; [reflexivity|].
  now rewrite !append_cons, IH.
Qed.

Lemma append_nil_r (a : string) : a +:+ EmptyString = a.
Proof.
  induction a as [|x a' IH]; [reflexivity|].
  now rewrite append_cons, IH.
Qed.

Lemma contains_here (s rest : string) : contains s (s +:+ rest).
Proof. exists EmptyString, rest. reflexivity. Qed.

Lemma contains_end (s : string) : contains s s.
Proof.
  exists EmptyString, EmptyString. now rewrite append_nil_l, append_nil_r.
Qed.

Lemma contains_skip (s a t : string) : contains s t -> contains s (a +:+ t).
Proof.
  intros (before & after & ->). exists (a +:+ before), after.
  now rewrite append_assoc.
Qed.

(** Walks down a right-nested concatenation to the operand searched for. *)
Ltac find_substring :=
  first [ apply contains_here
        | apply contains_end
        | apply contains_skip; find_substring ].

Lemma prefix_append (s rest : string) : String.prefix s (s +:+ rest) = true.
Proof.
  induction s as [|c s' IH].
  - now destruct rest.
  - rewrite append_cons. simpl.
    destruct (ascii_dec c c) as [_|ne]; [exact IH | now destruct ne].
Qed.

Lemma is_substring_here (s t : string) :
  String.prefix s t = true -> is_substring s t = true.
Proof. intros E. destruct t; cbn [is_substring]; rewrite E; reflexivity. Qed.

Lemma is_substring_complete (s t : string) :
  contains s t -> is_substring s t = true.
Proof.
  intros (before & after & ->).
  induction before as [|c before' IH].
  - rewrite append_nil_l. apply is_substring_here, prefix_append.
  - rewrite append_cons. cbn [is_substring]. rewrite IH. apply orb_true_r.
Qed.

Lemma not_contains (s t : string) : is_substring s t = false -> ~ contains s t.
Proof. intros E Hc. apply is_substring_complete in Hc. congruence. Qed.


(** ** Printing *)

Section Printing.
Context {CO : Console} {S : Type}.

Lemma print_accepted line (s : S) :
  print_raises line = None -> print line s = (inr tt, s).
Proof. intros E. unfold print. now rewrite E. Qed.

Lemma print_refused line e (s : S) :
  print_raises line = Some e -> print line s = (inl e, s).
Proof. intros E. unfold print. now rewrite E. Qed.

End Printing.

Section ClientRuns.
Context {RT : Runtime} {CO : Console} (net : network).

(** When the trace lines are printed, a call posts exactly one request and
    returns a value. *)
Lemma generate_text_printed self prompt max_tokens temperature log :
  accepts_all CO ->
  TogetherAIClient.generate_text (CO := CO) net self prompt max_tokens
    temperature log
  = (inr (completion_of
            (net log (request_of self prompt max_tokens temperature))),
     log ++ [request_of self prompt max_tokens temperature]).
Proof.
  intros Hacc.
  unfold TogetherAIClient.generate_text, try_except, try_except_on, bind,
    print, requests_post, lift, ret, completion_of, request_of,
    read_completion.
  rewrite !Hacc.
  destruct (net log _) as [e|resp]; [now rewrite ?Hacc|].
  destruct (status_code resp =? 200); cbn [negb]; [|now rewrite ?Hacc].
  destruct (json resp) as [e|result]; [now rewrite ?Hacc|].
  destruct (TogetherAIClient.first_choice_text result) as [e|generated];
    [now rewrite ?Hacc|].
  destruct (slice_to generated 100) as [e|shown]; now rewrite ?Hacc.
Qed.


End ClientRuns.

Lemma generate_text_on_accepting {RT : Runtime} {CO : Console} (net : network)
    self prompt max_tokens temperature log :
  accepts_all CO ->
  TogetherAIClient.generate_text (CO := CO) net self prompt max_tokens
    temperature log
  = TogetherAIClient.generate_text (CO := stdout) net self prompt max_tokens
      temperature log.
Proof.
  intros Hacc. rewrite generate_text_printed by exact Hacc.
  symmetry. apply generate_text_printed. intros line. reflexivity.
Qed.


(** ** The generation client *)

Section ClientProperties.
Context {RT : Runtime} (net : network).

(** Every call posts exactly one request and returns a value. *)
Lemma generate_text_run self prompt max_tokens temperature log :
  let rq := request_of self prompt max_tokens temperature in
  TogetherAIClient.generate_text net self prompt max_tokens temperature log
  = (inr (completion_of (net log rq)), log ++ [rq]).
Proof. apply generate_text_printed. intros line. reflexivity. Qed.

Lemma first_choice_text_found body choice rest v :
  dict_get "choices" body = Some (PList (PDict choice :: rest)) ->
  dict_get "text" choice = Some v ->
  TogetherAIClient.first_choice_text (PDict body) = inr v.
Proof.
  intros Hc Ht. unfold TogetherAIClient.first_choice_text. simpl.
  rewrite Hc. simpl. rewrite Ht. reflexivity.
Qed.

End ClientProperties.

Section ClientContract.
Context {RT : Runtime} {CO : Console} (net : network).

(** C2, as the code has it: when the trace lines are printed,
    [generate_text] never raises.  Whatever the endpoint and the transport
    do, the call posts one request and returns a value.  After a status
    other than 200 the value is ["Error: "] followed by the status code.
    When [requests.post] raises, the value is ["Error: "] followed by [str]
    of the exception; so it is for a malformed 200 response: a body that
    is not JSON, a body without [choices], [choices] without a first
    element, a first choice without [text], a text that cannot be
    sliced. *)
Theorem generate_text_never_raises :
  forall self prompt max_tokens temperature log,
    accepts_all CO ->
    let rq := request_of self prompt max_tokens temperature in
    exists v,
      TogetherAIClient.generate_text (CO := CO) net self prompt max_tokens
        temperature log
        = (inr v, log ++ [rq])
      /\ (forall resp, net log rq = inr resp -> status_code resp <> 200 ->
            v = PStr ("Error: " +:+ string_of_Z (status_code resp)))
      /\ (forall e, net log rq = inl e -> v = PStr ("Error: " +:+ str_exn e))
      /\ (forall resp e,
            net log rq = inr resp -> status_code resp = 200 ->
            json resp = inl e ->
            v = PStr ("Error: " +:+ str_exn e))
      /\ (forall resp body e,
            net log rq = inr resp -> status_code resp = 200 ->
            json resp = inr body ->
            subscript body (IStr "choices") = inl e ->
            v = PStr ("Error: " +:+ str_exn e))
      /\ (forall resp body choices e,
            net log rq = inr resp -> status_code resp = 200 ->
            json resp = inr body ->
            subscript body (IStr "choices") = inr choices ->
            subscript choices (IInt 0) = inl e ->
            v = PStr ("Error: " +:+ str_exn e))
      /\ (forall resp body choices choice e,
            net log rq = inr resp -> status_code resp = 200 ->
            json resp = inr body ->
            subscript body (IStr "choices") = inr choices ->
            subscript choices (IInt 0) = inr choice ->
            subscript choice (IStr "text") = inl e ->
            v = PStr ("Error: " +:+ str_exn e))
      /\ (forall resp body choices choice generated e,
            net log rq = inr resp -> status_code resp = 200 ->
            json resp = inr body ->
            subscript body (IStr "choices") = inr choices ->
            subscript choices (IInt 0) = inr choice ->
            subscript choice (IStr "text") = inr generated ->
            slice_to generated 100 = inl e ->
            v = PStr ("Error: " +:+ str_exn e)).
Proof.
  intros self prompt max_tokens temperature log Hacc rq.
  exists (completion_of (net log rq)).
  split; [now apply generate_text_printed|].
  unfold completion_of, read_completion, TogetherAIClient.first_choice_text.
  split; [|split; [|split; [|split; [|split; [|split]]]]].
  - intros resp -> Hs. apply Z.eqb_neq in Hs. now rewrite Hs.
  - now intros e ->.
  - intros resp e -> Hs Hj. now rewrite Hs, Hj.
  - intros resp body e -> Hs Hj Hc. now rewrite Hs, Hj, Hc.
  - intros resp body choices e -> Hs Hj Hc H0. now rewrite Hs, Hj, Hc, H0.
  - intros resp body choices choice e -> Hs Hj Hc H0 Ht.
    now rewrite Hs, Hj, Hc, H0, Ht.
  - intros resp body choices choice generated e -> Hs Hj Hc H0 Ht Hsl.
    now rewrite Hs, Hj, Hc, H0, Ht, Hsl.
Qed.

(** C3, as the code has it: when the trace lines are printed, after a 200
    response whose body is an object with a [choices] array whose first
    element is an object with the text [t] under [text], [generate_text]
    returns exactly [t]. *)
Theorem generate_text_returns_first_choice :
  forall self prompt max_tokens temperature log resp body choice rest t,
    accepts_all CO ->
    net log (request_of self prompt max_tokens temperature) = inr resp ->
    status_code resp = 200 ->
    json resp = inr (PDict body) ->
    dict_get "choices" body = Some (PList (PDict choice :: rest)) ->
    dict_get "text" choice = Some (PStr t) ->
    fst (TogetherAIClient.generate_text (CO := CO) net self prompt max_tokens
           temperature log)
      = inr (PStr t).
Proof.
  intros self prompt max_tokens temperature log resp body choice rest t
    Hacc Hnet Hs Hj Hc Ht.
  rewrite generate_text_printed by exact Hacc. cbn [fst]. rewrite Hnet.
  unfold completion_of. rewrite Hs. unfold read_completion.
  rewrite Hj, (first_choice_text_found _ _ _ _ Hc Ht). reflexivity.
Qed.

End ClientContract.

(** With the body [{"choices":[{"text":"X"}]}] the client returns ["X"]. *)
Lemma generate_text_returns_X :
  fst (TogetherAIClient.generate_text (RT := Fixture.runtime) (CO := stdout)
         (Fixture.always (inr (Fixture.completion "X")))
         Fixture.client "Explain Murabaha" 1024 (7 # 10)%Q [])
  = inr (PStr "X").
Proof.
  refine (generate_text_returns_first_choice (RT := Fixture.runtime)
            (CO := stdout)
            (Fixture.always (inr (Fixture.completion "X")))
            Fixture.client "Explain Murabaha" 1024 (7 # 10)%Q []
            (Fixture.completion "X")
            [("choices", PList [PDict [("text", PStr "X")]])]
            [("text", PStr "X")] [] "X" _ _ _ _ _ _);
    try reflexivity.
  intros line. reflexivity.
Defined.

(** A call on a stdout that takes every line, answered with the status
    503: one request posted, ["Error: 503"] returned. *)
Lemma generate_text_never_raises_when_down :
  exists v,
    TogetherAIClient.generate_text (RT := Fixture.runtime) (CO := stdout)
      Run.down Fixture.client "Explain Ijarah" 1024 (7 # 10)%Q []
    = (inr v, [] ++ [request_of Fixture.client "Explain Ijarah" 1024 (7 # 10)%Q])
    /\ v = PStr ("Error: " +:+ string_of_Z 503).
Proof.
  destruct (generate_text_never_raises (RT := Fixture.runtime) (CO := stdout)
              Run.down Fixture.client "Explain Ijarah" 1024 (7 # 10)%Q []
              (fun line => eq_refl))
    as (v & Hrun & Hstatus & _).
  exists v. split; [exact Hrun|].
  apply (Hstatus {| status_code := 503; text := "unavailable";
                    json := inl (JSONDecodeError "unavailable") |});
    [reflexivity | discriminate].
Defined.

(** ** Bootstrap of the reference data *)

Section StoreProperties.
Import Store.
Variable json_loads : string -> exn + pyval.
Variable json_dumps : pyval -> string.


Lemma open_read_some fs p content :
  file_content fs p = Some content -> open_read p fs = (inr content, fs).
Proof. intros E. unfold open_read. now rewrite E. Qed.

Lemma open_read_none fs p :
  file_content fs p = None ->
  open_read p fs = (inl (FileNotFoundError (path_str p)), fs).
Proof. intros E. unfold open_read. now rewrite E. Qed.

Lemma open_write_in fs p content files :
  fs !! dir p = Some files ->
  open_write p content fs
  = (inr tt, <[dir p := <[name p := content]> files]> fs).
Proof. intros E. unfold open_write. now rewrite E. Qed.

Lemma json_load_some fs p content :
  file_content fs p = Some content ->
  json_load json_loads p fs = (json_loads content, fs).
Proof.
  intros E. unfold json_load, bind, lift. rewrite (open_read_some _ _ _ E).
  now destruct (json_loads content).
Qed.

(** After [makedirs d] the directory is there, with the files it had. *)
Lemma makedirs_run (fs : filesystem) d :
  exists fs',
    makedirs d fs = (inr tt, fs')
    /\ fs' !! d = Some (default ∅ (fs !! d))
    /\ forall d', d' <> d -> fs' !! d' = fs !! d'.
Proof.
  unfold makedirs. destruct (fs !! d) as [files|] eqn:E.
  - exists fs. now rewrite E.
  - exists (<[d := ∅]> fs). split; [reflexivity|]. split.
    + now rewrite lookup_insert_eq.
    + intros d' Hne. now rewrite lookup_insert_ne.
Qed.

(** The [except] branch run on any file system: the three files end up
    holding the dump of an empty list. *)
Lemma bootstrap_run (fs : filesystem) :
  exists fs',
    (let! _ := makedirs "data" in
     let! _ := json_dump json_dumps (PList []) standards_json in
     let! _ := json_dump json_dumps (PList []) examples_json in
     let! _ := json_dump json_dumps (PList []) glossary_json in
     ret empty_data) fs = (inr empty_data, fs')
    /\ file_content fs' standards_json = Some (json_dumps (PList []))
    /\ file_content fs' examples_json = Some (json_dumps (PList []))
    /\ file_content fs' glossary_json = Some (json_dumps (PList [])).
Proof.
  destruct (makedirs_run fs "data") as (fs1 & Hmk & Hdir & _).
  set (files0 := default ∅ (fs !! "data")) in Hdir.
  eexists. split.
  - unfold bind at 1. rewrite Hmk.
    unfold bind at 1. unfold json_dump at 1.
    rewrite (open_write_in fs1 standards_json _ files0 Hdir).
    unfold bind at 1. unfold json_dump at 1.
    erewrite (open_write_in _ examples_json); [|apply lookup_insert_eq].
    unfold bind at 1. unfold json_dump at 1.
    erewrite (open_write_in _ glossary_json); [|apply lookup_insert_eq].
    reflexivity.
  - unfold file_content. simpl. rewrite !lookup_insert_eq.
    repeat split; simplify_map_eq; reflexivity.
Qed.

(** C7: with none of the three data files on disk, start-up yields three
    empty collections and leaves each file holding an empty JSON array;
    loading again from the disk it left yields three empty collections
    again, and writes nothing. *)
Theorem bootstrap_round_trip :
  forall fs : filesystem,
    json_dumps (PList []) = "[]" ->
    json_loads "[]" = inr (PList []) ->
    file_content fs standards_json = None ->
    file_content fs examples_json = None ->
    file_content fs glossary_json = None ->
    exists fs',
      load json_loads json_dumps fs = (inr empty_data, fs')
      /\ file_content fs' standards_json = Some "[]"
      /\ file_content fs' examples_json = Some "[]"
      /\ file_content fs' glossary_json = Some "[]"
      /\ load json_loads json_dumps fs' = (inr empty_data, fs').
Proof.
  intros fs Hdump Hload Hs _ _.
  destruct (bootstrap_run fs) as (fs' & Hrun & Fs & Fe & Fg).
  rewrite Hdump in Fs, Fe, Fg.
  exists fs'. repeat split; try assumption.
  - unfold load, try_except_on. unfold bind at 1.
    unfold json_load at 1. unfold bind at 1.
    rewrite (open_read_none _ _ Hs). simpl. exact Hrun.
  - unfold load, try_except_on.
    unfold bind at 1. rewrite (json_load_some _ _ _ Fs), Hload.
    unfold bind at 1. rewrite (json_load_some _ _ _ Fe), Hload.
    unfold bind at 1. rewrite (json_load_some _ _ _ Fg), Hload.
    reflexivity.
Qed.

End StoreProperties.

(** ** Reference-data lookup *)

Lemma subscript_str_inv v key x :
  subscript v (IStr key) = inr x ->
  exists d, v = PDict d /\ dict_get key d = Some x.
Proof.
  destruct v; simpl; try discriminate.
  intros E. exists d. split; [reflexivity|].
  destruct (dict_get key d); [now inversion E | discriminate].
Qed.

(** An element that answers a subscript is a non-empty [dict]. *)
Lemma subscript_str_truthy v key x :
  subscript v (IStr key) = inr x -> truthy v = true.
Proof.
  intros E. destruct (subscript_str_inv _ _ _ E) as (d & -> & Hd).
  destruct d; [discriminate | reflexivity].
Qed.

Lemma first_match_inv key wanted items x :
  Api.first_match key wanted items = inr x ->
  x = PNone \/ exists v, subscript x (IStr key) = inr v /\ eq_str v wanted = true.
Proof.
  induction items as [|y rest IH]; simpl.
  - intros E. left. now inversion E.
  - destruct (subscript y (IStr key)) as [e|v] eqn:Ey; [discriminate|].
    destruct (eq_str v wanted) eqn:Ev; [|exact IH].
    intros E. inversion E; subst. right. now exists v.
Qed.

(** What a lookup finds, unless it is [None], passes [if not ...]. *)
Lemma find_by_truthy key wanted coll x :
  Api.find_by key wanted coll = inr x -> x <> PNone -> truthy x = true.
Proof.
  unfold Api.find_by. destruct (iter coll) as [e|items]; [discriminate|].
  intros E Hx. destruct (first_match_inv _ _ _ _ E) as [->|(v & Hv & _)].
  - now destruct Hx.
  - exact (subscript_str_truthy _ _ _ Hv).
Qed.

(** The first element that matches is found, whatever follows it, when the
    elements before it can be compared and do not match. *)
Lemma first_match_app key wanted before x after v :
  Forall (fun y => exists w, subscript y (IStr key) = inr w
                            /\ eq_str w wanted = false) before ->
  subscript x (IStr key) = inr v ->
  eq_str v wanted = true ->
  Api.first_match key wanted (before ++ x :: after) = inr x.
Proof.
  intros Hb Hx Hv. induction Hb as [|y before' (w & Hy & Hw) _ IH]; simpl.
  - now rewrite Hx, Hv.
  - now rewrite Hy, Hw.
Qed.

(** ** The endpoints *)

Section EndpointProperties.
Context {RT : Runtime} {C : Type} {GC : GenerationClient C}.
Variable explainer : IslamicFinanceStandardsExplainer.t C.

Lemma get_explanation_no_standard db request log found :
  Api.find_by "id" (ExplanationRequest.standard_id request) (Store.standards db)
    = inr found ->
  truthy found = false ->
  Api.get_explanation explainer db request log
  = (inl (miss "Standard not found"), log).
Proof.
  intros Hf Ht.
  unfold Api.get_explanation, try_except, try_except_on, bind, lift, raise.
  rewrite Hf, Ht. reflexivity.
Qed.

Lemma get_explanation_no_example db request log standard found :
  Api.find_by "id" (ExplanationRequest.standard_id request) (Store.standards db)
    = inr standard ->
  standard <> PNone ->
  Api.find_by "standard_id" (ExplanationRequest.standard_id request)
    (Store.examples db) = inr found ->
  truthy found = false ->
  Api.get_explanation explainer db request log
  = (inl (miss "Example not found"), log).
Proof.
  intros Hs Hn Hf Ht.
  unfold Api.get_explanation, try_except, try_except_on, bind, lift, raise.
  rewrite Hs, (find_by_truthy _ _ _ _ Hs Hn). simpl.
  rewrite Hf, Ht. reflexivity.
Qed.

Lemma get_explanation_found db request log standard example title :
  Api.find_by "id" (ExplanationRequest.standard_id request) (Store.standards db)
    = inr standard ->
  standard <> PNone ->
  Api.find_by "standard_id" (ExplanationRequest.standard_id request)
    (Store.examples db) = inr example ->
  example <> PNone ->
  subscript standard (IStr (Api.title_key (ExplanationRequest.language request)))
    = inr title ->
  Api.get_explanation explainer db request log
  = respond_with "explanation"
      (generate_text (IslamicFinanceStandardsExplainer.ai_client explainer)
         (IslamicFinanceStandardsExplainer.explanation_prompt title
            (PStr (ExplanationRequest.scenario request))
            (ExplanationRequest.language request))
         2048 (5 # 10)%Q log).
Proof.
  intros Hs Hsn He Hen Ht.
  unfold Api.get_explanation, try_except, try_except_on, bind, lift, raise.
  rewrite Hs, (find_by_truthy _ _ _ _ Hs Hsn). simpl.
  rewrite He, (find_by_truthy _ _ _ _ He Hen). simpl.
  rewrite Ht. unfold IslamicFinanceStandardsExplainer.get_explanation, respond_with.
  destruct (generate_text _ _ _ _ log) as [[e|v] log']; reflexivity.
Qed.

Lemma get_feedback_no_standard db request log found :
  Api.find_by "id" (FeedbackRequest.standard_id request) (Store.standards db)
    = inr found ->
  truthy found = false ->
  Api.get_feedback explainer db request log
  = (inl (miss "Standard not found"), log).
Proof.
  intros Hf Ht.
  unfold Api.get_feedback, try_except, try_except_on, bind, lift, raise.
  rewrite Hf, Ht. reflexivity.
Qed.

Lemma get_feedback_no_example db request log standard found :
  Api.find_by "id" (FeedbackRequest.standard_id request) (Store.standards db)
    = inr standard ->
  standard <> PNone ->
  Api.find_by "standard_id" (FeedbackRequest.standard_id request)
    (Store.examples db) = inr found ->
  truthy found = false ->
  Api.get_feedback explainer db request log
  = (inl (miss "Example not found"), log).
Proof.
  intros Hs Hn Hf Ht.
  unfold Api.get_feedback, try_except, try_except_on, bind, lift, raise.
  rewrite Hs, (find_by_truthy _ _ _ _ Hs Hn). simpl.
  rewrite Hf, Ht. reflexivity.
Qed.

(** The feedback endpoint after both lookups: two generation calls, the
    second on a prompt built from the value the first returned. *)
Lemma get_feedback_found db request log standard example title scenario :
  Api.find_by "id" (FeedbackRequest.standard_id request) (Store.standards db)
    = inr standard ->
  standard <> PNone ->
  Api.find_by "standard_id" (FeedbackRequest.standard_id request)
    (Store.examples db) = inr example ->
  example <> PNone ->
  subscript standard (IStr (Api.title_key (FeedbackRequest.language request)))
    = inr title ->
  subscript example (IStr (Api.scenario_key (FeedbackRequest.language request)))
    = inr scenario ->
  Api.get_feedback explainer db request log
  = match generate_text (IslamicFinanceStandardsExplainer.ai_client explainer)
            (IslamicFinanceStandardsExplainer.explanation_prompt title scenario
               (FeedbackRequest.language request))
            2048 (5 # 10)%Q log with
    | (inl e, log1) => (inl (HTTPException 500 (str_exn e)), log1)
    | (inr expert_solution, log1) =>
        match generate_text (IslamicFinanceStandardsExplainer.ai_client explainer)
                (IslamicFinanceStandardsExplainer.feedback_prompt scenario
                   (PStr (FeedbackRequest.user_solution request))
                   expert_solution
                   (FeedbackRequest.language request))
                1024 (5 # 10)%Q log1 with
        | (inl e, log2) => (inl (HTTPException 500 (str_exn e)), log2)
        | (inr feedback, log2) =>
            (inr (PDict [("feedback", feedback);
                         ("expert_solution", expert_solution)]), log2)
        end
    end.
Proof.
  intros Hs Hsn He Hen Ht Hc.
  unfold Api.get_feedback, try_except, try_except_on, bind, lift, raise.
  rewrite Hs, (find_by_truthy _ _ _ _ Hs Hsn). simpl.
  rewrite He, (find_by_truthy _ _ _ _ He Hen). simpl.
  rewrite Ht, Hc. unfold IslamicFinanceStandardsExplainer.get_explanation,
    IslamicFinanceStandardsExplainer.get_feedback.
  destruct (generate_text _ _ _ _ log) as [[e|expert] log1]; [reflexivity|].
  destruct (generate_text _ _ _ _ log1) as [[e|feedback] log2]; reflexivity.
Qed.

Lemma ask_question_run db request log :
  Api.ask_question explainer db request log
  = respond_with "answer"
      (generate_text (IslamicFinanceStandardsExplainer.ai_client explainer)
         (IslamicFinanceStandardsExplainer.question_prompt
            (PStr (QuestionRequest.question request))
            (QuestionRequest.language request))
         1536 (7 # 10)%Q log).
Proof.
  unfold Api.ask_question, try_except, try_except_on, bind, ret, respond_with,
    IslamicFinanceStandardsExplainer.ask_custom_question.
  destruct (generate_text _ _ _ _ log) as [[e|v] log']; reflexivity.
Qed.

End EndpointProperties.

(** On an empty disk the bootstrap writes the three files and a reload
    reads them back. *)
Lemma bootstrap_round_trip_on_empty_disk :
  exists fs' : Store.filesystem,
    Store.load Fixture.json_loads Fixture.json_dumps ∅ = (inr empty_data, fs')
    /\ Store.file_content fs' Store.standards_json = Some "[]"
    /\ Store.file_content fs' Store.examples_json = Some "[]"
    /\ Store.file_content fs' Store.glossary_json = Some "[]"
    /\ Store.load Fixture.json_loads Fixture.json_dumps fs' = (inr empty_data, fs').
Proof.
  apply (bootstrap_round_trip Fixture.json_loads Fixture.json_dumps ∅);
    reflexivity.
Defined.

(** ** Lookup misses *)

(** C1, on the code: a request for a standard that is not loaded, or for a
    standard without an example, makes no generation call, and the failure
    it ends in carries the status 500, not 404: the 404 is raised inside
    the [try] block whose [except Exception] clause raises a 500 with the
    text of whatever it caught.  Shown on a store with the standards
    FAS-28 (with an example) and FAS-32 (without), for every client. *)
Theorem lookup_miss_answers_500 :
  forall (RT : Runtime) (C : Type) (GC : GenerationClient C)
         (explainer : IslamicFinanceStandardsExplainer.t C)
         (text language : string) (log : list http_request),
    Api.get_explanation explainer Fixture.db
      {| ExplanationRequest.standard_id := "FAS-99";
         ExplanationRequest.scenario := text;
         ExplanationRequest.language := language |} log
    = (inl (HTTPException 500 (str_exn (HTTPException 404 "Standard not found"))),
       log)
    /\ Api.get_explanation explainer Fixture.db
      {| ExplanationRequest.standard_id := "FAS-32";
         ExplanationRequest.scenario := text;
         ExplanationRequest.language := language |} log
    = (inl (HTTPException 500 (str_exn (HTTPException 404 "Example not found"))),
       log)
    /\ Api.get_feedback explainer Fixture.db
      {| FeedbackRequest.standard_id := "FAS-99";
         FeedbackRequest.user_solution := text;
         FeedbackRequest.language := language |} log
    = (inl (HTTPException 500 (str_exn (HTTPException 404 "Standard not found"))),
       log)
    /\ Api.get_feedback explainer Fixture.db
      {| FeedbackRequest.standard_id := "FAS-32";
         FeedbackRequest.user_solution := text;
         FeedbackRequest.language := language |} log
    = (inl (HTTPException 500 (str_exn (HTTPException 404 "Example not found"))),
       log).
Proof.
  intros. split; [|split; [|split]].
  - now apply get_explanation_no_standard with (found := PNone).
  - now apply get_explanation_no_example
      with (standard := Fixture.ijarah) (found := PNone).
  - now apply get_feedback_no_standard with (found := PNone).
  - now apply get_feedback_no_example
      with (standard := Fixture.ijarah) (found := PNone).
Qed.

(** ** Sampling parameters *)

Section Sampling.
Context {RT : Runtime} (net : network) (client : TogetherAIClient.t).

(** C6: each of the three operations of the explainer posts one request,
    with fixed sampling parameters: the explanation with
    [max_tokens = 2048] and [temperature = 0.5], the feedback with 1024 and
    0.5, the question with 1536 and 0.7, whatever the texts and the
    language. *)
Theorem sampling_parameters_are_fixed :
  forall standard title scenario user_solution expert_solution question
         language log,
    (exists rq,
        snd (IslamicFinanceStandardsExplainer.get_explanation
               (GC := TogetherAIClient.client net)
               {| IslamicFinanceStandardsExplainer.ai_client := client |}
               standard title scenario language log) = log ++ [rq]
        /\ sampled_with 2048 (5 # 10)%Q rq)
    /\ (exists rq,
        snd (IslamicFinanceStandardsExplainer.get_feedback
               (GC := TogetherAIClient.client net)
               {| IslamicFinanceStandardsExplainer.ai_client := client |}
               scenario user_solution expert_solution language log) = log ++ [rq]
        /\ sampled_with 1024 (5 # 10)%Q rq)
    /\ (exists rq,
        snd (IslamicFinanceStandardsExplainer.ask_custom_question
               (GC := TogetherAIClient.client net)
               {| IslamicFinanceStandardsExplainer.ai_client := client |}
               question language log) = log ++ [rq]
        /\ sampled_with 1536 (7 # 10)%Q rq).
Proof.
  intros. split; [|split];
    unfold IslamicFinanceStandardsExplainer.get_explanation,
      IslamicFinanceStandardsExplainer.get_feedback,
      IslamicFinanceStandardsExplainer.ask_custom_question,
      generate_text, TogetherAIClient.client;
    rewrite generate_text_run; eexists; (split; [reflexivity|]);
    split; reflexivity.
Qed.

End Sampling.

(** ** The ask endpoint *)

(** C8: the ask endpoint consults no reference data (its outcome is the
    same on every store) and, when the client returns [answer] for the
    question prompt, responds with [{"answer": answer}].  The Together AI
    client always returns, so with it every request is answered this way,
    after one generation call. *)
Theorem ask_question_returns_answer :
  forall (RT : Runtime) (C : Type) (GC : GenerationClient C)
         (explainer : IslamicFinanceStandardsExplainer.t C)
         (db : Store.data) (request : QuestionRequest.t)
         (log log' : list http_request) (answer : pyval),
    generate_text (IslamicFinanceStandardsExplainer.ai_client explainer)
      (IslamicFinanceStandardsExplainer.question_prompt
         (PStr (QuestionRequest.question request))
         (QuestionRequest.language request))
      1536 (7 # 10)%Q log = (inr answer, log') ->
    Api.ask_question explainer db request log
      = (inr (PDict [("answer", answer)]), log')
    /\ (forall db', Api.ask_question explainer db' request log
                    = Api.ask_question explainer db request log)
    /\ (forall (net : network) (client : TogetherAIClient.t),
          exists generated rq,
            TogetherAIClient.generate_text net client
              (IslamicFinanceStandardsExplainer.question_prompt
                 (PStr (QuestionRequest.question request))
                 (QuestionRequest.language request))
              1536 (7 # 10)%Q log = (inr generated, log ++ [rq])
            /\ Api.ask_question (GC := TogetherAIClient.client net)
                 {| IslamicFinanceStandardsExplainer.ai_client := client |}
                 db request log
               = (inr (PDict [("answer", generated)]), log ++ [rq])).
Proof.
  intros RT C GC explainer db request log log' answer Hgen.
  split; [|split].
  - rewrite ask_question_run, Hgen. reflexivity.
  - intros db'. now rewrite !ask_question_run.
  - intros net client. rewrite ask_question_run.
    unfold generate_text at 1, TogetherAIClient.client.
    cbn [IslamicFinanceStandardsExplainer.ai_client].
    rewrite generate_text_run. cbv zeta.
    eexists. eexists. split; reflexivity.
Qed.

(** [POST /api/ask] with [{"question":"What is Murabaha?","language":"English"}]
    against a stubbed client returning ["Murabaha is..."] yields
    [{"answer":"Murabaha is..."}]. *)
Lemma ask_question_with_stub :
  let explainer :=
    {| IslamicFinanceStandardsExplainer.ai_client :=
         {| Fixture.reply := PStr "Murabaha is..." |} |} in
  let request :=
    {| QuestionRequest.question := "What is Murabaha?";
       QuestionRequest.language := "English" |} in
  Api.ask_question (RT := Fixture.runtime) (GC := Fixture.stub_client)
    explainer Fixture.db request []
  = (inr (PDict [("answer", PStr "Murabaha is...")]), []).
Proof.
  intros explainer request.
  apply (ask_question_returns_answer Fixture.runtime Fixture.stub
           Fixture.stub_client explainer Fixture.db request [] []
           (PStr "Murabaha is...")).
  reflexivity.
Defined.

(** ** What the prompts contain *)

Section Templates.
Context {RT : Runtime}.
Import IslamicFinanceStandardsExplainer.

Lemma explanation_prompt_has_title title scenario language :
  contains (format_value title) (explanation_prompt title scenario language).
Proof.
  unfold explanation_prompt.
  destruct (String.eqb language "English");
    unfold explanation_prompt_en, explanation_prompt_ar; find_substring.
Qed.

Lemma explanation_prompt_has_scenario title scenario language :
  contains (format_value scenario) (explanation_prompt title scenario language).
Proof.
  unfold explanation_prompt.
  destruct (String.eqb language "English");
    unfold explanation_prompt_en, explanation_prompt_ar; find_substring.
Qed.

Lemma feedback_prompt_has_expert_solution scenario user_solution expert language :
  contains (format_value expert)
    (feedback_prompt scenario user_solution expert language).
Proof.
  unfold feedback_prompt.
  destruct (String.eqb language "English");
    unfold feedback_prompt_en, feedback_prompt_ar; find_substring.
Qed.

(** The two explanation templates differ from their first byte on. *)
Lemma explanation_templates_differ t s t' s' :
  explanation_prompt_en t s <> explanation_prompt_ar t' s'.
Proof.
  intros E. apply (f_equal first_byte) in E. discriminate E.
Qed.

End Templates.

(** ** The explanation endpoint *)

Section ExplanationProperties.
Context {RT : Runtime}.
Import IslamicFinanceStandardsExplainer.

(** C4, as the code has it: when the standard and an example are found and
    the standard has the title field of the language, the explanation
    endpoint posts one prompt, which contains the resolved title and the
    scenario text of the request, both verbatim; the English template with
    [title_en] is used when the language is ["English"], the Arabic
    template with [title_ar] for every other language, and no prompt is an
    instance of both templates. *)
Theorem explanation_prompt_contents :
  forall (net : network) (client : TogetherAIClient.t) (db : Store.data)
         (request : ExplanationRequest.t) (log : list http_request)
         (standard example title : pyval),
    Api.find_by "id" (ExplanationRequest.standard_id request)
      (Store.standards db) = inr standard ->
    standard <> PNone ->
    Api.find_by "standard_id" (ExplanationRequest.standard_id request)
      (Store.examples db) = inr example ->
    example <> PNone ->
    subscript standard
      (IStr (Api.title_key (ExplanationRequest.language request))) = inr title ->
    exists rq,
      snd (Api.get_explanation (GC := TogetherAIClient.client net)
             {| ai_client := client |} db request log) = log ++ [rq]
      /\ contains (format_value title) (data_prompt (req_json rq))
      /\ contains (ExplanationRequest.scenario request)
           (data_prompt (req_json rq))
      /\ (ExplanationRequest.language request = "English" ->
            Api.title_key (ExplanationRequest.language request) = "title_en"
            /\ data_prompt (req_json rq)
               = explanation_prompt_en (format_value title)
                   (ExplanationRequest.scenario request))
      /\ (ExplanationRequest.language request <> "English" ->
            Api.title_key (ExplanationRequest.language request) = "title_ar"
            /\ data_prompt (req_json rq)
               = explanation_prompt_ar (format_value title)
                   (ExplanationRequest.scenario request))
      /\ (forall t s t' s',
            explanation_prompt_en t s <> explanation_prompt_ar t' s').
Proof.
  intros net client db request log standard example title Hs Hsn He Hen Ht.
  rewrite (get_explanation_found _ _ _ _ _ _ _ Hs Hsn He Hen Ht).
  unfold generate_text, TogetherAIClient.client. cbn [ai_client].
  rewrite generate_text_run. cbn [respond_with snd].
  eexists. split; [reflexivity|]. cbn [req_json request_of data_prompt].
  split; [apply explanation_prompt_has_title|].
  split; [apply (explanation_prompt_has_scenario title (PStr _))|].
  unfold explanation_prompt, Api.title_key.
  split; [|split].
  - intros ->. now rewrite String.eqb_refl.
  - intros Hne. apply String.eqb_neq in Hne. now rewrite Hne.
  - apply explanation_templates_differ.
Qed.

(** C9: when the standard and an example are found, the explanation
    endpoint generates from the prompt built with the scenario of the
    request; the example found does not enter the outcome, which is the
    same with any other collection of examples in which one is found. *)
Theorem explanation_uses_request_scenario :
  forall (C : Type) (GC : GenerationClient C) (explainer : t C)
         (db : Store.data) (request : ExplanationRequest.t)
         (log : list http_request) (standard example title : pyval),
    Api.find_by "id" (ExplanationRequest.standard_id request)
      (Store.standards db) = inr standard ->
    standard <> PNone ->
    Api.find_by "standard_id" (ExplanationRequest.standard_id request)
      (Store.examples db) = inr example ->
    example <> PNone ->
    subscript standard
      (IStr (Api.title_key (ExplanationRequest.language request))) = inr title ->
    Api.get_explanation explainer db request log
      = respond_with "explanation"
          (generate_text (ai_client explainer)
             (explanation_prompt title
                (PStr (ExplanationRequest.scenario request))
                (ExplanationRequest.language request))
             2048 (5 # 10)%Q log)
    /\ contains (ExplanationRequest.scenario request)
         (explanation_prompt title
            (PStr (ExplanationRequest.scenario request))
            (ExplanationRequest.language request))
    /\ forall examples' example',
         Api.find_by "standard_id" (ExplanationRequest.standard_id request)
           examples' = inr example' ->
         example' <> PNone ->
         Api.get_explanation explainer
           {| Store.standards := Store.standards db;
              Store.examples := examples';
              Store.glossary := Store.glossary db |} request log
         = Api.get_explanation explainer db request log.
Proof.
  intros C GC explainer db request log standard example title
    Hs Hsn He Hen Ht.
  split; [|split].
  - exact (get_explanation_found _ _ _ _ _ _ _ Hs Hsn He Hen Ht).
  - apply (explanation_prompt_has_scenario title (PStr _)).
  - intros examples' example' He' Hen'.
    rewrite (get_explanation_found _ _ _ _ _ _ _ Hs Hsn He Hen Ht).
    now apply get_explanation_found with (standard := standard)
                                         (example := example').
Qed.

End ExplanationProperties.

(** ** The feedback endpoint *)

Section FeedbackProperties.
Context {RT : Runtime}.
Import IslamicFinanceStandardsExplainer.


End FeedbackProperties.

(** ** Which entry a lookup resolves to *)

Section LookupProperties.
Context {RT : Runtime} {C : Type} {GC : GenerationClient C}.
Variable explainer : IslamicFinanceStandardsExplainer.t C.









End LookupProperties.

(** ** Consoles that take every line *)

Lemma try_except_handlers {S A : Type} (body : ST S A) (h1 h2 : exn -> ST S A) s :
  (forall e s', h1 e s' = h2 e s') ->
  try_except body h1 s = try_except body h2 s.
Proof.
  intros H. unfold try_except, try_except_on.
  destruct (body s) as [[e|a] s']; [apply H | reflexivity].
Qed.

(** Targets the lookups and subscripts an endpoint goes through. *)
Ltac through_lookups :=
  repeat (cbv beta iota;
          match goal with
          | |- context [match Api.find_by ?a ?b ?c with _ => _ end] =>
              destruct (Api.find_by a b c)
          | |- context [negb (truthy ?x)] => destruct (truthy x); cbn [negb]
          | |- context [match subscript ?a ?b with _ => _ end] =>
              destruct (subscript a b)
          end);
  cbv beta iota.

Section ClientExtensionality.
Context {RT : Runtime} {CO : Console} {C : Type}.
Variables GC1 GC2 : GenerationClient C.
Hypothesis Hext : forall c p m t l, GC1 c p m t l = GC2 c p m t l.

Lemma get_explanation_client_ext explainer db request log :
  Api.get_explanation (GC := GC1) explainer db request log
  = Api.get_explanation (GC := GC2) explainer db request log.
Proof.
  unfold Api.get_explanation, try_except, try_except_on, bind, lift, raise,
    IslamicFinanceStandardsExplainer.get_explanation, generate_text.
  through_lookups; rewrite ?Hext; reflexivity.
Qed.

Lemma get_feedback_client_ext explainer db request log :
  Api.get_feedback (GC := GC1) explainer db request log
  = Api.get_feedback (GC := GC2) explainer db request log.
Proof.
  unfold Api.get_feedback, try_except, try_except_on, bind, lift, raise,
    IslamicFinanceStandardsExplainer.get_explanation,
    IslamicFinanceStandardsExplainer.get_feedback, generate_text.
  through_lookups; rewrite ?Hext; try reflexivity.
  destruct (GC2 _ _ _ _ log) as [[e|expert] log1]; rewrite ?Hext; reflexivity.
Qed.

End ClientExtensionality.

Section AcceptingConsole.
Context {RT : Runtime} {CO : Console}.
Hypothesis Hacc : accepts_all CO.

Section AnyClient.
Context {C : Type} {GC : GenerationClient C}.
Variable explainer : IslamicFinanceStandardsExplainer.t C.

Lemma get_explanation_on_accepting db request log :
  Api.get_explanation (CO := CO) explainer db request log
  = Api.get_explanation (CO := stdout) explainer db request log.
Proof.
  unfold Api.get_explanation. apply try_except_handlers. intros e s'.
  unfold bind. now rewrite print_accepted by apply Hacc.
Qed.

Lemma get_feedback_on_accepting db request log :
  Api.get_feedback (CO := CO) explainer db request log
  = Api.get_feedback (CO := stdout) explainer db request log.
Proof.
  unfold Api.get_feedback. apply try_except_handlers. intros e s'.
  unfold bind. now rewrite print_accepted by apply Hacc.
Qed.

Lemma ask_question_on_accepting db request log :
  Api.ask_question (CO := CO) explainer db request log
  = Api.ask_question (CO := stdout) explainer db request log.
Proof.
  unfold Api.ask_question. apply try_except_handlers. intros e s'.
  unfold bind. now rewrite print_accepted by apply Hacc.
Qed.

End AnyClient.

Variable net : network.
Variable explainer : IslamicFinanceStandardsExplainer.t TogetherAIClient.t.

Lemma get_explanation_together_on_accepting db request log :
  Api.get_explanation (CO := CO) (GC := TogetherAIClient.client (CO := CO) net)
    explainer db request log
  = Api.get_explanation (CO := stdout)
      (GC := TogetherAIClient.client (CO := stdout) net)
      explainer db request log.
Proof.
  rewrite get_explanation_on_accepting.
  apply get_explanation_client_ext. intros c p m t l.
  now apply generate_text_on_accepting.
Qed.

Lemma get_feedback_together_on_accepting db request log :
  Api.get_feedback (CO := CO) (GC := TogetherAIClient.client (CO := CO) net)
    explainer db request log
  = Api.get_feedback (CO := stdout)
      (GC := TogetherAIClient.client (CO := stdout) net)
      explainer db request log.
Proof.
  rewrite get_feedback_on_accepting.
  apply get_feedback_client_ext. intros c p m t l.
  now apply generate_text_on_accepting.
Qed.

End AcceptingConsole.

(** ** The loader on any disk *)

Section LoaderProperties.
Variable json_loads : string -> exn + pyval.
Variable json_dumps : pyval -> string.

Lemma json_load_run fs p :
  Store.json_load json_loads p fs
  = (match Store.file_content fs p with
     | None => inl (FileNotFoundError (Store.path_str p))
     | Some content => json_loads content
     end, fs).
Proof.
  unfold Store.json_load, bind, lift, Store.open_read.
  destruct (Store.file_content fs p) as [content|]; [|reflexivity].
  now destruct (json_loads content).
Qed.

(** The [except] branch, with the disk it leaves. *)
Lemma bootstrap_leaves (fs : Store.filesystem) :
  (let! _ := Store.makedirs "data" in
   let! _ := Store.json_dump json_dumps (PList []) Store.standards_json in
   let! _ := Store.json_dump json_dumps (PList []) Store.examples_json in
   let! _ := Store.json_dump json_dumps (PList []) Store.glossary_json in
   ret empty_data) fs
  = (inr empty_data, bootstrapped (json_dumps (PList [])) fs).
Proof.
  unfold bootstrapped, bind, Store.json_dump, Store.open_write, Store.makedirs,
    ret.
  cbn [Store.dir Store.name Store.standards_json Store.examples_json
         Store.glossary_json].
  destruct (fs !! "data") as [files|] eqn:E; cbn [default];
    rewrite ?lookup_insert_eq, ?E; cbn [default];
    rewrite ?lookup_insert_eq, ?insert_insert_eq; reflexivity.
Qed.

(** The loader, by what its [try] block reads. *)
Lemma load_by_cases (fs : Store.filesystem) :
  Store.load json_loads json_dumps fs
  = match read_all json_loads fs with
    | inr loaded => (inr loaded, fs)
    | inl e =>
        if Store.is_FileNotFoundError e
        then (inr empty_data, bootstrapped (json_dumps (PList [])) fs)
        else (inl e, fs)
    end.
Proof.
  unfold Store.load, try_except_on, read_all.
  unfold bind at 1. rewrite json_load_run.
  destruct (match Store.file_content fs Store.standards_json with
            | None => _ | Some c => _ end) as [e|vs].
  { destruct (Store.is_FileNotFoundError e);
      [apply bootstrap_leaves | reflexivity]. }
  unfold bind at 1. rewrite json_load_run.
  destruct (match Store.file_content fs Store.examples_json with
            | None => _ | Some c => _ end) as [e|ve].
  { destruct (Store.is_FileNotFoundError e);
      [apply bootstrap_leaves | reflexivity]. }
  unfold bind at 1. rewrite json_load_run.
  destruct (match Store.file_content fs Store.glossary_json with
            | None => _ | Some c => _ end) as [e|vg].
  { destruct (Store.is_FileNotFoundError e);
      [apply bootstrap_leaves | reflexivity]. }
  reflexivity.
Qed.

Lemma bootstrapped_data_file document fs p :
  is_data_file p ->
  Store.file_content (bootstrapped document fs) p = Some document.
Proof.
  unfold bootstrapped, Store.file_content.
  intros [-> | [-> | ->]]; cbn [Store.dir Store.name Store.standards_json
                             Store.examples_json Store.glossary_json];
    rewrite lookup_insert_eq; now simplify_map_eq.
Qed.

Lemma bootstrapped_other_file document fs p :
  ~ is_data_file p ->
  Store.file_content (bootstrapped document fs) p = Store.file_content fs p.
Proof.
  unfold bootstrapped, Store.file_content, is_data_file,
    Store.standards_json, Store.examples_json, Store.glossary_json.
  destruct p as [d n]. cbn [Store.dir Store.name]. intros Hp.
  destruct (decide (d = "data")) as [-> | Hd].
  - rewrite lookup_insert_eq.
    assert (n <> "standards.json") by (intros ->; tauto).
    assert (n <> "examples.json") by (intros ->; tauto).
    assert (n <> "glossary.json") by (intros ->; tauto).
    rewrite !lookup_insert_ne by congruence.
    now destruct (fs !! "data").
  - now rewrite lookup_insert_ne by congruence.
Qed.

Lemma read_all_bootstrapped fs :
  json_loads (json_dumps (PList [])) = inr (PList []) ->
  read_all json_loads (bootstrapped (json_dumps (PList [])) fs) = inr empty_data.
Proof.
  intros Hrt. unfold read_all.
  rewrite !bootstrapped_data_file by (unfold is_data_file; tauto).
  now rewrite Hrt.
Qed.

(** X1: with the three files on disk and parsing, the loader binds the
    three parsed documents, writes nothing, and the three listing
    endpoints return the documents as parsed. *)
Theorem load_reads_the_three_files :
  forall (fs : Store.filesystem) cs ce cg vs ve vg,
    Store.file_content fs Store.standards_json = Some cs ->
    Store.file_content fs Store.examples_json = Some ce ->
    Store.file_content fs Store.glossary_json = Some cg ->
    json_loads cs = inr vs ->
    json_loads ce = inr ve ->
    json_loads cg = inr vg ->
    exists loaded,
      Store.load json_loads json_dumps fs = (inr loaded, fs)
      /\ Api.get_standards loaded = vs
      /\ Api.get_examples loaded = ve
      /\ Api.get_glossary loaded = vg.
Proof.
  intros fs cs ce cg vs ve vg Fs Fe Fg Ps Pe Pg.
  rewrite load_by_cases. unfold read_all.
  rewrite Fs, Ps, Fe, Pe, Fg, Pg.
  eexists. repeat (split; [reflexivity|]). reflexivity.
Qed.

(** X2: one missing file is enough to reset everything.  When the first
    file that cannot be read is missing (the files before it parse), the
    loader binds three empty lists and overwrites all three files with
    the dump of an empty list, whatever standards.json or examples.json
    held. *)
Theorem load_resets_all_when_one_file_is_missing :
  forall fs : Store.filesystem,
    Store.file_content fs Store.standards_json = None
    \/ (readable json_loads fs Store.standards_json
        /\ Store.file_content fs Store.examples_json = None)
    \/ (readable json_loads fs Store.standards_json
        /\ readable json_loads fs Store.examples_json
        /\ Store.file_content fs Store.glossary_json = None) ->
    exists fs',
      Store.load json_loads json_dumps fs = (inr empty_data, fs')
      /\ Store.file_content fs' Store.standards_json
         = Some (json_dumps (PList []))
      /\ Store.file_content fs' Store.examples_json
         = Some (json_dumps (PList []))
      /\ Store.file_content fs' Store.glossary_json
         = Some (json_dumps (PList [])).
Proof.
  intros fs Hmiss.
  exists (bootstrapped (json_dumps (PList [])) fs).
  split.
  - rewrite load_by_cases. unfold read_all.
    destruct Hmiss as [Fs|[[(cs & vs & Fs & Ps) Fe]
                          |((cs & vs & Fs & Ps) & (ce & ve & Fe & Pe) & Fg)]].
    + now rewrite Fs.
    + now rewrite Fs, Ps, Fe.
    + now rewrite Fs, Ps, Fe, Pe, Fg.
  - repeat split; apply bootstrapped_data_file; unfold is_data_file; tauto.
Qed.

(** X3: a file that is there but does not parse stops the start-up: the
    exception of the parser leaves the loader (its [except] clause takes
    [FileNotFoundError] only) and nothing is written. *)
Theorem load_raises_on_malformed_file :
  forall (fs : Store.filesystem) e,
    Store.is_FileNotFoundError e = false ->
    malformed json_loads fs Store.standards_json e
    \/ (readable json_loads fs Store.standards_json
        /\ malformed json_loads fs Store.examples_json e)
    \/ (readable json_loads fs Store.standards_json
        /\ readable json_loads fs Store.examples_json
        /\ malformed json_loads fs Store.glossary_json e) ->
    Store.load json_loads json_dumps fs = (inl e, fs).
Proof.
  intros fs e Hne Hbad. rewrite load_by_cases. unfold read_all.
  destruct Hbad as [(cs & Fs & Ps)
                   |[[(cs & vs & Fs & Ps) (ce & Fe & Pe)]
                    |((cs & vs & Fs & Ps) & (ce & ve & Fe & Pe)
                      & (cg & Fg & Pg))]].
  - now rewrite Fs, Ps, Hne.
  - now rewrite Fs, Ps, Fe, Pe, Hne.
  - now rewrite Fs, Ps, Fe, Pe, Fg, Pg, Hne.
Qed.

(** X4: loading is idempotent.  When a load succeeds, loading again from
    the disk it left binds the same data and leaves that disk as it is;
    this needs only that the dump of an empty list parses back to one. *)
Theorem load_is_idempotent :
  forall (fs fs' : Store.filesystem) loaded,
    json_loads (json_dumps (PList [])) = inr (PList []) ->
    Store.load json_loads json_dumps fs = (inr loaded, fs') ->
    Store.load json_loads json_dumps fs' = (inr loaded, fs').
Proof.
  intros fs fs' loaded Hrt Hload.
  rewrite load_by_cases in Hload.
  destruct (read_all json_loads fs) as [e|d] eqn:R.
  - destruct (Store.is_FileNotFoundError e); [|discriminate].
    inversion Hload; subst.
    rewrite load_by_cases, read_all_bootstrapped by exact Hrt. reflexivity.
  - inversion Hload; subst. now rewrite load_by_cases, R.
Qed.

(** X5: the loader touches nothing but the three data files: every other
    file, in [data/] or elsewhere, reads the same after it as before,
    whether it returned or raised. *)
Theorem load_keeps_other_files :
  forall (fs fs' : Store.filesystem) outcome p,
    Store.load json_loads json_dumps fs = (outcome, fs') ->
    ~ is_data_file p ->
    Store.file_content fs' p = Store.file_content fs p.
Proof.
  intros fs fs' outcome p Hload Hp.
  rewrite load_by_cases in Hload.
  destruct (read_all json_loads fs) as [e|d].
  - destruct (Store.is_FileNotFoundError e); inversion Hload; subst;
      [now apply bootstrapped_other_file | reflexivity].
  - now inversion Hload; subst.
Qed.

End LoaderProperties.

(** ** Start-up *)

Section StartupProperties.
Variable json_loads : string -> exn + pyval.
Variable json_dumps : pyval -> string.


(** X6: without an API key the application does not start, and the check
    comes before anything else: with the variable unset, or set to the
    empty string, start-up raises and the disk is left as it was (no
    [data/] directory is created, no file is written). *)
Theorem startup_needs_api_key :
  forall (environ : gmap string string) (fs : Store.filesystem),
    environ !! "TOGETHER_API_KEY" = None
    \/ environ !! "TOGETHER_API_KEY" = Some "" ->
    Main.startup json_loads json_dumps environ fs
    = (inl (HTTPException 500 "Together AI API key not found"), fs).
Proof.
  intros environ fs Hkey.
  unfold Main.startup, bind, lift, Main.require_api_key.
  destruct Hkey as [-> | ->]; reflexivity.
Qed.


End StartupProperties.

(** ** More on the generation client *)

Section MoreClientProperties.
Context {RT : Runtime} (net : network).




End MoreClientProperties.


(** ** More on the prompts *)

Section MoreTemplates.
Context {RT : Runtime}.
Import IslamicFinanceStandardsExplainer.

Lemma feedback_prompt_has_scenario scenario user_solution expert language :
  contains (format_value scenario)
    (feedback_prompt scenario user_solution expert language).
Proof.
  unfold feedback_prompt.
  destruct (String.eqb language "English");
    unfold feedback_prompt_en, feedback_prompt_ar; find_substring.
Qed.

Lemma feedback_prompt_has_user_solution scenario user_solution expert language :
  contains (format_value user_solution)
    (feedback_prompt scenario user_solution expert language).
Proof.
  unfold feedback_prompt.
  destruct (String.eqb language "English");
    unfold feedback_prompt_en, feedback_prompt_ar; find_substring.
Qed.

Lemma question_prompt_has_question question language :
  contains (format_value question) (question_prompt question language).
Proof.
  unfold question_prompt.
  destruct (String.eqb language "English");
    unfold question_prompt_en, question_prompt_ar; find_substring.
Qed.

(** X10: the feedback and question prompts carry the texts they are given
    as they are, in either language: the scenario, the solution of the
    user and the expert solution in the feedback prompt, the question in
    the question prompt.  A [str] is inserted without escaping. *)
Theorem prompts_interpolate_verbatim :
  forall (scenario user_solution expert_solution question : string)
         (language : string),
    contains scenario
      (feedback_prompt (PStr scenario) (PStr user_solution)
         (PStr expert_solution) language)
    /\ contains user_solution
         (feedback_prompt (PStr scenario) (PStr user_solution)
            (PStr expert_solution) language)
    /\ contains expert_solution
         (feedback_prompt (PStr scenario) (PStr user_solution)
            (PStr expert_solution) language)
    /\ contains question (question_prompt (PStr question) language).
Proof.
  intros. split; [|split; [|split]].
  - apply (feedback_prompt_has_scenario (PStr _)).
  - apply (feedback_prompt_has_user_solution _ (PStr _)).
  - apply (feedback_prompt_has_expert_solution _ _ (PStr _)).
  - apply (question_prompt_has_question (PStr _)).
Qed.

(** X11: the language is compared with ["English"] and nothing else is
    looked at: any two languages other than that exact string give the
    same prompts, which are the Arabic templates of the three operations,
    and select the [title_ar] and [scenario_ar] fields, so that
    ["english"] or ["French"] are served in Arabic. *)
Theorem every_other_language_is_arabic :
  forall (language language' : string)
         (title scenario user_solution expert_solution question : pyval),
    language <> "English" ->
    language' <> "English" ->
    explanation_prompt title scenario language
      = explanation_prompt title scenario language'
    /\ explanation_prompt title scenario language
       = explanation_prompt_ar (format_value title) (format_value scenario)
    /\ feedback_prompt scenario user_solution expert_solution language
       = feedback_prompt scenario user_solution expert_solution language'
    /\ feedback_prompt scenario user_solution expert_solution language
       = feedback_prompt_ar (format_value scenario)
           (format_value user_solution) (format_value expert_solution)
    /\ question_prompt question language = question_prompt question language'
    /\ question_prompt question language
       = question_prompt_ar (format_value question)
    /\ Api.title_key language = "title_ar"
    /\ Api.scenario_key language = "scenario_ar".
Proof.
  intros language language' title scenario user_solution expert_solution
    question Hl Hl'.
  apply String.eqb_neq in Hl, Hl'.
  unfold explanation_prompt, feedback_prompt, question_prompt, Api.title_key,
    Api.scenario_key.
  rewrite Hl, Hl'.
  split; [reflexivity|]. split; [reflexivity|]. split; [reflexivity|].
  split; [reflexivity|]. split; [reflexivity|]. split; [reflexivity|].
  split; reflexivity.
Qed.

End MoreTemplates.

(** ** More on the lookups *)


Lemma first_match_none key wanted items :
  Forall (other_entry key wanted) items ->
  Api.first_match key wanted items = inr PNone.
Proof.
  intros Hi. induction Hi as [|y items' (w & Hy & Hw) _ IH]; simpl.
  - reflexivity.
  - now rewrite Hy, Hw.
Qed.

(** X12: over a list, a lookup gives [None] exactly when every entry can be
    read under the key and none has the value looked for. *)
Theorem find_by_none_iff :
  forall (key wanted : string) (items : list pyval),
    Api.find_by key wanted (PList items) = inr PNone
    <-> Forall (other_entry key wanted) items.
Proof.
  intros key wanted items. unfold Api.find_by. cbn [iter]. split.
  - induction items as [|y items' IH]; simpl; [constructor|].
    destruct (subscript y (IStr key)) as [e|w] eqn:Hy; [discriminate|].
    destruct (eq_str w wanted) eqn:Hw.
    + intros E. inversion E; subst. discriminate Hy.
    + intros E. constructor; [now exists w | now apply IH].
  - apply first_match_none.
Qed.

(** ** More on the endpoints *)

Section MoreEndpointProperties.
Context {RT : Runtime} {C : Type} {GC : GenerationClient C}.
Variable explainer : IslamicFinanceStandardsExplainer.t C.

Lemma try_except_500 {A : Type} (body : M A) log e :
  fst (try_except body (fun e => raise (HTTPException 500 (str_exn e))) log)
    = inl e ->
  exists cause, e = HTTPException 500 (str_exn cause).
Proof.
  unfold try_except, try_except_on, raise.
  destruct (body log) as [[cause|a] log']; cbn [fst]; [|discriminate].
  intros E. inversion E. now exists cause.
Qed.

End MoreEndpointProperties.

(** X13: when the console takes every line, an exception raised by the
    generation client inside a POST endpoint leaves the endpoint as an
    [HTTPException] with status 500 whose detail is [str] of that
    exception: in the ask endpoint, in the explanation endpoint, and in the
    feedback endpoint at its first call as at its second.  And whatever
    makes a POST endpoint fail, the failure that leaves it is an
    [HTTPException] with status 500; no other status, 404 included, ever
    leaves. *)
Theorem endpoints_fail_with_500_only :
  forall (RT : Runtime) (CO : Console) (C : Type) (GC : GenerationClient C)
         (explainer : IslamicFinanceStandardsExplainer.t C)
         (db : Store.data) (log : list http_request),
    accepts_all CO ->
    (forall (qr : QuestionRequest.t) e log',
        generate_text (IslamicFinanceStandardsExplainer.ai_client explainer)
          (IslamicFinanceStandardsExplainer.question_prompt
             (PStr (QuestionRequest.question qr)) (QuestionRequest.language qr))
          1536 (7 # 10)%Q log = (inl e, log') ->
        Api.ask_question (CO := CO) explainer db qr log
        = (inl (HTTPException 500 (str_exn e)), log'))
    /\ (forall (er : ExplanationRequest.t) standard example title e log',
          Api.find_by "id" (ExplanationRequest.standard_id er)
            (Store.standards db) = inr standard ->
          standard <> PNone ->
          Api.find_by "standard_id" (ExplanationRequest.standard_id er)
            (Store.examples db) = inr example ->
          example <> PNone ->
          subscript standard
            (IStr (Api.title_key (ExplanationRequest.language er)))
            = inr title ->
          generate_text (IslamicFinanceStandardsExplainer.ai_client explainer)
            (IslamicFinanceStandardsExplainer.explanation_prompt title
               (PStr (ExplanationRequest.scenario er))
               (ExplanationRequest.language er))
            2048 (5 # 10)%Q log = (inl e, log') ->
          Api.get_explanation (CO := CO) explainer db er log
          = (inl (HTTPException 500 (str_exn e)), log'))
    /\ (forall (fr : FeedbackRequest.t) standard example title scenario,
          Api.find_by "id" (FeedbackRequest.standard_id fr)
            (Store.standards db) = inr standard ->
          standard <> PNone ->
          Api.find_by "standard_id" (FeedbackRequest.standard_id fr)
            (Store.examples db) = inr example ->
          example <> PNone ->
          subscript standard
            (IStr (Api.title_key (FeedbackRequest.language fr))) = inr title ->
          subscript example
            (IStr (Api.scenario_key (FeedbackRequest.language fr)))
            = inr scenario ->
          (forall e log1,
              generate_text
                (IslamicFinanceStandardsExplainer.ai_client explainer)
                (IslamicFinanceStandardsExplainer.explanation_prompt title
                   scenario (FeedbackRequest.language fr))
                2048 (5 # 10)%Q log = (inl e, log1) ->
              Api.get_feedback (CO := CO) explainer db fr log
              = (inl (HTTPException 500 (str_exn e)), log1))
          /\ (forall expert_solution log1 e log2,
                generate_text
                  (IslamicFinanceStandardsExplainer.ai_client explainer)
                  (IslamicFinanceStandardsExplainer.explanation_prompt title
                     scenario (FeedbackRequest.language fr))
                  2048 (5 # 10)%Q log = (inr expert_solution, log1) ->
                generate_text
                  (IslamicFinanceStandardsExplainer.ai_client explainer)
                  (IslamicFinanceStandardsExplainer.feedback_prompt scenario
                     (PStr (FeedbackRequest.user_solution fr)) expert_solution
                     (FeedbackRequest.language fr))
                  1024 (5 # 10)%Q log1 = (inl e, log2) ->
                Api.get_feedback (CO := CO) explainer db fr log
                = (inl (HTTPException 500 (str_exn e)), log2)))
    /\ (forall (er : ExplanationRequest.t) (fr : FeedbackRequest.t)
               (qr : QuestionRequest.t) (err : exn),
          fst (Api.get_explanation (CO := CO) explainer db er log) = inl err
          \/ fst (Api.get_feedback (CO := CO) explainer db fr log) = inl err
          \/ fst (Api.ask_question (CO := CO) explainer db qr log) = inl err ->
          exists cause, err = HTTPException 500 (str_exn cause)).
Proof.
  intros RT CO C GC explainer db log Hacc.
  split; [|split; [|split]].
  - intros qr e log' Hgen.
    rewrite (ask_question_on_accepting Hacc), ask_question_run, Hgen.
    reflexivity.
  - intros er standard example title e log' Hs Hsn He Hen Ht Hgen.
    rewrite (get_explanation_on_accepting Hacc),
      (get_explanation_found _ _ _ _ _ _ _ Hs Hsn He Hen Ht), Hgen.
    reflexivity.
  - intros fr standard example title scenario Hs Hsn He Hen Ht Hc. split.
    + intros e log1 Hgen.
      rewrite (get_feedback_on_accepting Hacc),
        (get_feedback_found _ _ _ _ _ _ _ _ Hs Hsn He Hen Ht Hc), Hgen.
      reflexivity.
    + intros expert_solution log1 e log2 Hgen1 Hgen2.
      rewrite (get_feedback_on_accepting Hacc),
        (get_feedback_found _ _ _ _ _ _ _ _ Hs Hsn He Hen Ht Hc), Hgen1, Hgen2.
      reflexivity.
  - intros er fr qr err [H|[H|H]].
    + rewrite (get_explanation_on_accepting Hacc) in H.
      unfold Api.get_explanation in H. exact (try_except_500 _ _ _ H).
    + rewrite (get_feedback_on_accepting Hacc) in H.
      unfold Api.get_feedback in H. exact (try_except_500 _ _ _ H).
    + rewrite (ask_question_on_accepting Hacc) in H.
      unfold Api.ask_question in H. exact (try_except_500 _ _ _ H).
Qed.

Section MoreLookupMisses.
Context {RT : Runtime} {C : Type} {GC : GenerationClient C}.
Variable explainer : IslamicFinanceStandardsExplainer.t C.




End MoreLookupMisses.

(** X15: a lookup miss on any store, when the console takes every line.
    When no standard has the identifier, both endpoints end in the 500
    that wraps the 404 "Standard not found"; when the first standard that
    has it is there but no example has it, both end in the 500 that wraps
    the 404 "Example not found".  Neither makes a generation call. *)
Theorem lookup_miss_on_any_store :
  forall (RT : Runtime) (CO : Console) (C : Type) (GC : GenerationClient C)
         (explainer : IslamicFinanceStandardsExplainer.t C)
         (db : Store.data) (id : string) (standards examples : list pyval)
         (er : ExplanationRequest.t) (fr : FeedbackRequest.t)
         (log : list http_request),
    accepts_all CO ->
    Store.standards db = PList standards ->
    Store.examples db = PList examples ->
    ExplanationRequest.standard_id er = id ->
    FeedbackRequest.standard_id fr = id ->
    (Forall (other_entry "id" id) standards ->
       Api.get_explanation (CO := CO) explainer db er log
         = (inl (HTTPException 500
                   (str_exn (HTTPException 404 "Standard not found"))), log)
       /\ Api.get_feedback (CO := CO) explainer db fr log
          = (inl (HTTPException 500
                    (str_exn (HTTPException 404 "Standard not found"))), log))
    /\ ((exists before standard after,
            standards = before ++ standard :: after
            /\ Forall (other_entry "id" id) before
            /\ entry_for "id" id standard) ->
        Forall (other_entry "standard_id" id) examples ->
        Api.get_explanation (CO := CO) explainer db er log
          = (inl (HTTPException 500
                    (str_exn (HTTPException 404 "Example not found"))), log)
        /\ Api.get_feedback (CO := CO) explainer db fr log
           = (inl (HTTPException 500
                     (str_exn (HTTPException 404 "Example not found"))), log)).
Proof.
  intros RT CO C GC explainer db id standards examples er fr log
    Hacc Hs He Her Hfr.
  rewrite (get_explanation_on_accepting Hacc), (get_feedback_on_accepting Hacc).
  split.
  - intros Hnone.
    assert (Hfind : Api.find_by "id" id (Store.standards db) = inr PNone)
      by (rewrite Hs; unfold Api.find_by; now apply first_match_none).
    split.
    + apply get_explanation_no_standard with (found := PNone);
        [now rewrite Her | reflexivity].
    + apply get_feedback_no_standard with (found := PNone);
        [now rewrite Hfr | reflexivity].
  - intros (before & standard & after & -> & Hb & Hstd) Hnone.
    assert (Hfs : Api.find_by "id" id (Store.standards db) = inr standard).
    { rewrite Hs. destruct Hstd as (v & Hv & Hw). unfold Api.find_by.
      cbn [iter]. now apply first_match_app with (v := v). }
    assert (Hne : standard <> PNone).
    { destruct Hstd as (v & Hv & _). intros ->. discriminate Hv. }
    assert (Hfe : Api.find_by "standard_id" id (Store.examples db) = inr PNone)
      by (rewrite He; unfold Api.find_by; now apply first_match_none).
    split.
    + apply get_explanation_no_example with (standard := standard)
                                             (found := PNone);
        rewrite ?Her; auto.
    + apply get_feedback_no_example with (standard := standard)
                                          (found := PNone);
        rewrite ?Hfr; auto.
Qed.


Section TogetherEndpointProperties.
Context {RT : Runtime} (net : network) (client : TogetherAIClient.t).
Import IslamicFinanceStandardsExplainer.

(** On the stdout that takes every line, an endpoint fails before any
    generation call or succeeds after all of its calls. *)
Lemma endpoints_outcomes_printed :
  forall (db : Store.data) (er : ExplanationRequest.t)
         (fr : FeedbackRequest.t) (log : list http_request),
    ((exists cause,
         Api.get_explanation (GC := TogetherAIClient.client net)
           {| ai_client := client |} db er log
         = (inl (HTTPException 500 (str_exn cause)), log))
     \/ (exists explanation rq,
           Api.get_explanation (GC := TogetherAIClient.client net)
             {| ai_client := client |} db er log
           = (inr (PDict [("explanation", explanation)]), log ++ [rq])))
    /\ ((exists cause,
            Api.get_feedback (GC := TogetherAIClient.client net)
              {| ai_client := client |} db fr log
            = (inl (HTTPException 500 (str_exn cause)), log))
        \/ (exists feedback expert_solution rq1 rq2,
              Api.get_feedback (GC := TogetherAIClient.client net)
                {| ai_client := client |} db fr log
              = (inr (PDict [("feedback", feedback);
                             ("expert_solution", expert_solution)]),
                 log ++ [rq1; rq2]))).
Proof.
  intros db er fr log. split.
  - unfold Api.get_explanation, try_except, try_except_on, bind, lift, raise.
    destruct (Api.find_by "id" _ _) as [e|standard]; [left; eauto|].
    destruct (negb (truthy standard)); [left; eauto|].
    destruct (Api.find_by "standard_id" _ _) as [e|example]; [left; eauto|].
    destruct (negb (truthy example)); [left; eauto|].
    destruct (subscript standard _) as [e|title]; [left; eauto|].
    right. unfold get_explanation, generate_text, TogetherAIClient.client.
    cbn [ai_client]. rewrite generate_text_run. eauto.
  - unfold Api.get_feedback, try_except, try_except_on, bind, lift, raise.
    destruct (Api.find_by "id" _ _) as [e|standard]; [left; eauto|].
    destruct (negb (truthy standard)); [left; eauto|].
    destruct (Api.find_by "standard_id" _ _) as [e|example]; [left; eauto|].
    destruct (negb (truthy example)); [left; eauto|].
    destruct (subscript standard _) as [e|title]; [left; eauto|].
    destruct (subscript example _) as [e|scenario]; [left; eauto|].
    right. unfold get_explanation, get_feedback, generate_text,
      TogetherAIClient.client.
    cbn [ai_client]. rewrite generate_text_run. cbv zeta.
    rewrite generate_text_run. cbv zeta. unfold ret.
    rewrite <- app_assoc. cbn [app]. eauto 10.
Qed.

(** On the stdout that takes every line, an upstream failure is served as
    a success. *)
Lemma explanation_serves_status_printed :
  forall (db : Store.data) (request : ExplanationRequest.t)
         (log : list http_request) (standard example title : pyval)
         (resp : response),
    Api.find_by "id" (ExplanationRequest.standard_id request)
      (Store.standards db) = inr standard ->
    standard <> PNone ->
    Api.find_by "standard_id" (ExplanationRequest.standard_id request)
      (Store.examples db) = inr example ->
    example <> PNone ->
    subscript standard
      (IStr (Api.title_key (ExplanationRequest.language request))) = inr title ->
    let rq := request_of client
                (explanation_prompt title
                   (PStr (ExplanationRequest.scenario request))
                   (ExplanationRequest.language request)) 2048 (5 # 10)%Q in
    net log rq = inr resp ->
    status_code resp <> 200 ->
    Api.get_explanation (GC := TogetherAIClient.client net)
      {| ai_client := client |} db request log
    = (inr (PDict [("explanation",
                    PStr ("Error: " +:+ string_of_Z (status_code resp)))]),
       log ++ [rq]).
Proof.
  intros db request log standard example title resp Hs Hsn He Hen Ht rq
    Hnet Hst.
  rewrite (get_explanation_found _ _ _ _ _ _ _ Hs Hsn He Hen Ht).
  unfold generate_text, TogetherAIClient.client. cbn [ai_client].
  rewrite generate_text_run. cbv zeta. fold rq. rewrite Hnet.
  apply Z.eqb_neq in Hst. unfold completion_of. rewrite Hst. reflexivity.
Qed.

(** X18: the feedback endpoint works from the stored example.  When the
    standard and an example are found, with the title and the scenario of
    the language, its first prompt contains the title and the scenario
    stored with the example, and its second prompt contains that same
    scenario and the solution of the user, all verbatim. *)
Theorem feedback_prompts_use_stored_scenario :
  forall (db : Store.data) (request : FeedbackRequest.t)
         (log : list http_request) (standard example title scenario : pyval),
    Api.find_by "id" (FeedbackRequest.standard_id request)
      (Store.standards db) = inr standard ->
    standard <> PNone ->
    Api.find_by "standard_id" (FeedbackRequest.standard_id request)
      (Store.examples db) = inr example ->
    example <> PNone ->
    subscript standard
      (IStr (Api.title_key (FeedbackRequest.language request))) = inr title ->
    subscript example
      (IStr (Api.scenario_key (FeedbackRequest.language request)))
      = inr scenario ->
    exists rq1 rq2,
      snd (Api.get_feedback (GC := TogetherAIClient.client net)
             {| ai_client := client |} db request log) = log ++ [rq1; rq2]
      /\ contains (format_value title) (data_prompt (req_json rq1))
      /\ contains (format_value scenario) (data_prompt (req_json rq1))
      /\ contains (format_value scenario) (data_prompt (req_json rq2))
      /\ contains (FeedbackRequest.user_solution request)
           (data_prompt (req_json rq2)).
Proof.
  intros db request log standard example title scenario Hs Hsn He Hen Ht Hc.
  rewrite (get_feedback_found _ _ _ _ _ _ _ _ Hs Hsn He Hen Ht Hc).
  unfold generate_text, TogetherAIClient.client. cbn [ai_client].
  rewrite !generate_text_run. cbv zeta. cbn [snd].
  eexists. eexists. split; [now rewrite <- app_assoc|].
  cbn [req_json request_of data_prompt].
  split; [apply explanation_prompt_has_title|].
  split; [apply explanation_prompt_has_scenario|].
  split; [apply feedback_prompt_has_scenario|].
  apply (feedback_prompt_has_user_solution _ (PStr _)).
Qed.

End TogetherEndpointProperties.

Section TogetherOnAnyConsole.
Context {RT : Runtime} {CO : Console} (net : network)
  (client : TogetherAIClient.t).
Import IslamicFinanceStandardsExplainer.

(** X16: with the Together AI client and a console that takes every
    line, an endpoint either fails before any generation call or succeeds
    after all of its calls: the explanation endpoint ends in a 500 with
    nothing posted, or in [{"explanation": ...}] with exactly one request
    posted; the feedback endpoint ends in a 500 with nothing posted, or in
    [{"feedback": ..., "expert_solution": ...}] with exactly two.  No
    behaviour of the network makes an endpoint fail. *)
Theorem endpoints_fail_before_calling_or_succeed :
  forall (db : Store.data) (er : ExplanationRequest.t)
         (fr : FeedbackRequest.t) (log : list http_request),
    accepts_all CO ->
    ((exists cause,
         Api.get_explanation (CO := CO)
           (GC := TogetherAIClient.client (CO := CO) net)
           {| ai_client := client |} db er log
         = (inl (HTTPException 500 (str_exn cause)), log))
     \/ (exists explanation rq,
           Api.get_explanation (CO := CO)
             (GC := TogetherAIClient.client (CO := CO) net)
             {| ai_client := client |} db er log
           = (inr (PDict [("explanation", explanation)]), log ++ [rq])))
    /\ ((exists cause,
            Api.get_feedback (CO := CO)
              (GC := TogetherAIClient.client (CO := CO) net)
              {| ai_client := client |} db fr log
            = (inl (HTTPException 500 (str_exn cause)), log))
        \/ (exists feedback expert_solution rq1 rq2,
              Api.get_feedback (CO := CO)
                (GC := TogetherAIClient.client (CO := CO) net)
                {| ai_client := client |} db fr log
              = (inr (PDict [("feedback", feedback);
                             ("expert_solution", expert_solution)]),
                 log ++ [rq1; rq2]))).
Proof.
  intros db er fr log Hacc.
  rewrite (get_explanation_together_on_accepting Hacc),
    (get_feedback_together_on_accepting Hacc).
  apply endpoints_outcomes_printed.
Qed.

(** X17: an upstream failure is served as a success.  When the console
    takes every line, the standard and an example are found, the standard
    has the title of the language, and the completion endpoint answers
    the explanation request with a status other than 200, the explanation
    endpoint returns [{"explanation": "Error: <status>"}] as if it had been
    generated. *)
Theorem explanation_serves_upstream_failure :
  forall (db : Store.data) (request : ExplanationRequest.t)
         (log : list http_request) (standard example title : pyval)
         (resp : response),
    accepts_all CO ->
    Api.find_by "id" (ExplanationRequest.standard_id request)
      (Store.standards db) = inr standard ->
    standard <> PNone ->
    Api.find_by "standard_id" (ExplanationRequest.standard_id request)
      (Store.examples db) = inr example ->
    example <> PNone ->
    subscript standard
      (IStr (Api.title_key (ExplanationRequest.language request))) = inr title ->
    let rq := request_of client
                (explanation_prompt title
                   (PStr (ExplanationRequest.scenario request))
                   (ExplanationRequest.language request)) 2048 (5 # 10)%Q in
    net log rq = inr resp ->
    status_code resp <> 200 ->
    Api.get_explanation (CO := CO)
      (GC := TogetherAIClient.client (CO := CO) net)
      {| ai_client := client |} db request log
    = (inr (PDict [("explanation",
                    PStr ("Error: " +:+ string_of_Z (status_code resp)))]),
       log ++ [rq]).
Proof.
  intros db request log standard example title resp Hacc Hs Hsn He Hen Ht rq
    Hnet Hst.
  rewrite (get_explanation_together_on_accepting Hacc).
  now apply explanation_serves_status_printed
    with (standard := standard) (example := example).
Qed.

End TogetherOnAnyConsole.

(** ** A fresh installation *)

Section FreshInstall.
Variable json_loads : string -> exn + pyval.
Variable json_dumps : pyval -> string.


End FreshInstall.

(** ** Concrete runs *)

(** The runs below are made with the runtime of the fixtures. *)
#[local] Existing Instance Fixture.runtime.

(** C4 as stated fails on the explanation endpoint: for FAS-28 in English
    the standard and its example are both found, the scenario resolved
    from the example is the stored one, and the prompt posted does not
    contain it; it contains the scenario of the request instead. *)
Lemma explanation_prompt_lacks_stored_scenario :
  Api.find_by "id" "FAS-28" (Store.standards Fixture.db) = inr Fixture.murabaha
  /\ Api.find_by "standard_id" "FAS-28" (Store.examples Fixture.db)
     = inr Fixture.murabaha_example
  /\ subscript Fixture.murabaha_example (IStr (Api.scenario_key "English"))
     = inr (PStr Fixture.stored_scenario)
  /\ exists rq,
       snd (Api.get_explanation
              (GC := TogetherAIClient.client Run.net)
              Fixture.explainer Fixture.db Run.explanation_request []) = [rq]
       /\ ~ contains Fixture.stored_scenario (data_prompt (req_json rq)).
Proof.
  split; [reflexivity|]. split; [reflexivity|]. split; [reflexivity|].
  eexists. split; [reflexivity|].
  apply not_contains. vm_compute. reflexivity.
Qed.

Lemma explanation_prompt_contents_for_murabaha :
  exists rq,
    snd (Api.get_explanation
           (GC := TogetherAIClient.client Run.net)
           Fixture.explainer Fixture.db Run.explanation_request []) = [] ++ [rq]
    /\ contains (format_value Run.title_en)
         (data_prompt (req_json rq))
    /\ contains (ExplanationRequest.scenario Run.explanation_request)
         (data_prompt (req_json rq))
    /\ (ExplanationRequest.language Run.explanation_request = "English" ->
          Api.title_key (ExplanationRequest.language Run.explanation_request)
            = "title_en"
          /\ data_prompt (req_json rq)
             = IslamicFinanceStandardsExplainer.explanation_prompt_en
                 (format_value Run.title_en)
                 (ExplanationRequest.scenario Run.explanation_request))
    /\ (ExplanationRequest.language Run.explanation_request <> "English" ->
          Api.title_key (ExplanationRequest.language Run.explanation_request)
            = "title_ar"
          /\ data_prompt (req_json rq)
             = IslamicFinanceStandardsExplainer.explanation_prompt_ar
                 (format_value Run.title_en)
                 (ExplanationRequest.scenario Run.explanation_request))
    /\ (forall t s t' s',
          IslamicFinanceStandardsExplainer.explanation_prompt_en t s
          <> IslamicFinanceStandardsExplainer.explanation_prompt_ar t' s').
Proof.
  apply (explanation_prompt_contents Run.net
           Fixture.client Fixture.db Run.explanation_request []
           Fixture.murabaha Fixture.murabaha_example Run.title_en);
    first [reflexivity | discriminate].
Defined.

Lemma explanation_uses_request_scenario_for_murabaha :
  Api.get_explanation
    (GC := TogetherAIClient.client Run.net)
    Fixture.explainer Fixture.db Run.explanation_request []
  = respond_with "explanation"
      (generate_text (GenerationClient := TogetherAIClient.client Run.net)
         Fixture.client
         (IslamicFinanceStandardsExplainer.explanation_prompt
            Run.title_en
            (PStr (ExplanationRequest.scenario Run.explanation_request))
            (ExplanationRequest.language Run.explanation_request))
         2048 (5 # 10)%Q [])
  /\ contains (ExplanationRequest.scenario Run.explanation_request)
       (IslamicFinanceStandardsExplainer.explanation_prompt
          Run.title_en
          (PStr (ExplanationRequest.scenario Run.explanation_request))
          (ExplanationRequest.language Run.explanation_request))
  /\ forall examples' example',
       Api.find_by "standard_id"
         (ExplanationRequest.standard_id Run.explanation_request)
         examples' = inr example' ->
       example' <> PNone ->
       Api.get_explanation
         (GC := TogetherAIClient.client Run.net) Fixture.explainer
         {| Store.standards := Store.standards Fixture.db;
            Store.examples := examples';
            Store.glossary := Store.glossary Fixture.db |}
         Run.explanation_request []
       = Api.get_explanation
           (GC := TogetherAIClient.client Run.net)
           Fixture.explainer Fixture.db Run.explanation_request [].
Proof.
  apply (explanation_uses_request_scenario
           TogetherAIClient.t (TogetherAIClient.client Run.net)
           Fixture.explainer Fixture.db Run.explanation_request []
           Fixture.murabaha Fixture.murabaha_example Run.title_en);
    first [reflexivity | discriminate].
Defined.



(** *** The client on failing calls *)

Example generate_text_on_503 :
  TogetherAIClient.generate_text Run.down Fixture.client "Explain Ijarah"
    1024 (7 # 10)%Q []
  = (inr (PStr "Error: 503"),
     [request_of Fixture.client "Explain Ijarah" 1024 (7 # 10)%Q]).
Proof. reflexivity. Qed.

Example generate_text_on_timeout :
  fst (TogetherAIClient.generate_text
         (Fixture.always (inl (RequestException "timed out")))
         Fixture.client "Explain Ijarah" 1024 (7 # 10)%Q [])
  = inr (PStr "Error: timed out").
Proof. reflexivity. Qed.

Example generate_text_on_empty_choices :
  fst (TogetherAIClient.generate_text
         (Fixture.always
            (inr {| status_code := 200; text := "{}";
                    json := inr (PDict [("choices", PList [])]) |}))
         Fixture.client "Explain Ijarah" 1024 (7 # 10)%Q [])
  = inr (PStr "Error: index out of range").
Proof. reflexivity. Qed.

(** *** An entry without the field of the language *)

(** The hypotheses on the title and the scenario in the theorems above are
    needed: for a standard without [title_ar], an Arabic request ends in a
    500 carrying the [KeyError], before any generation call. *)
Example explanation_without_title_ar :
  Api.get_explanation (GC := TogetherAIClient.client Run.net)
    Fixture.explainer
    {| Store.standards :=
         PList [PDict [("id", PStr "FAS-28"); ("title_en", PStr "Murabaha")]];
       Store.examples := PList [Fixture.murabaha_example];
       Store.glossary := PList [] |}
    {| ExplanationRequest.standard_id := "FAS-28";
       ExplanationRequest.scenario := "A sale with deferred payment.";
       ExplanationRequest.language := "Arabic" |} []
  = (inl (HTTPException 500 "'title_ar'"), []).
Proof. reflexivity. Qed.

(** *** The loader on concrete disks *)

Lemma load_reads_the_three_files_on_complete_disk :
  exists loaded,
    Store.load Disk.json_loads Fixture.json_dumps Disk.complete
    = (inr loaded, Disk.complete)
    /\ Api.get_standards loaded = PList [PInt 28; PInt 32]
    /\ Api.get_examples loaded = PList [PInt 28]
    /\ Api.get_glossary loaded = PDict [].
Proof.
  refine (load_reads_the_three_files Disk.json_loads Fixture.json_dumps
            Disk.complete "[28, 32]" "[28]" "{}"
            (PList [PInt 28; PInt 32]) (PList [PInt 28]) (PDict [])
            _ _ _ _ _ _);
    reflexivity.
Defined.

(** The standards on the disk are lost because the examples are missing. *)
Lemma load_resets_partial_disk :
  exists fs',
    Store.load Disk.json_loads Fixture.json_dumps Disk.partial
    = (inr empty_data, fs')
    /\ Store.file_content fs' Store.standards_json
       = Some (Fixture.json_dumps (PList []))
    /\ Store.file_content fs' Store.examples_json
       = Some (Fixture.json_dumps (PList []))
    /\ Store.file_content fs' Store.glossary_json
       = Some (Fixture.json_dumps (PList [])).
Proof.
  refine (load_resets_all_when_one_file_is_missing Disk.json_loads
            Fixture.json_dumps Disk.partial _).
  right. left. split; [|reflexivity].
  exists "[28, 32]", (PList [PInt 28; PInt 32]). split; reflexivity.
Defined.

Lemma load_raises_on_broken_disk :
  Store.load Disk.json_loads Fixture.json_dumps Disk.broken
  = (inl (JSONDecodeError "[28, "), Disk.broken).
Proof.
  refine (load_raises_on_malformed_file Disk.json_loads Fixture.json_dumps
            Disk.broken (JSONDecodeError "[28, ") _ _); [reflexivity|].
  left. exists "[28, ". split; reflexivity.
Defined.

Lemma load_is_idempotent_on_partial_disk :
  Store.load Disk.json_loads Fixture.json_dumps (bootstrapped "[]" Disk.partial)
  = (inr empty_data, bootstrapped "[]" Disk.partial).
Proof.
  refine (load_is_idempotent Disk.json_loads Fixture.json_dumps
            Disk.partial (bootstrapped "[]" Disk.partial) empty_data _ _).
  - reflexivity.
  - vm_compute. reflexivity.
Defined.

Lemma load_keeps_the_notes :
  Store.file_content (bootstrapped "[]" Disk.partial) Disk.notes
  = Store.file_content Disk.partial Disk.notes.
Proof.
  refine (load_keeps_other_files Disk.json_loads Fixture.json_dumps
            Disk.partial (bootstrapped "[]" Disk.partial) (inr empty_data)
            Disk.notes _ _).
  - vm_compute. reflexivity.
  - unfold is_data_file. intros [H|[H|H]]; discriminate H.
Defined.

(** *** Start-up in concrete environments *)

Lemma startup_without_key :
  Main.startup Disk.json_loads Fixture.json_dumps ∅ Disk.partial
  = (inl (HTTPException 500 "Together AI API key not found"), Disk.partial).
Proof.
  refine (startup_needs_api_key Disk.json_loads Fixture.json_dumps
            ∅ Disk.partial _).
  left. reflexivity.
Defined.



(** *** The client and the prompts *)


(** A [list] under [choices[0].text] comes back as a [list]. *)
Example generate_text_returns_a_list :
  fst (TogetherAIClient.generate_text
         (Fixture.always
            (inr {| status_code := 200; text := "{}";
                    json := inr (PDict [("choices",
                                         PList [PDict [("text",
                                                        PList [PInt 1])]])]) |}))
         Fixture.client "Explain Ijarah" 1024 (7 # 10)%Q [])
  = inr (PList [PInt 1]).
Proof. reflexivity. Qed.

Lemma english_in_lower_case_is_arabic :
  IslamicFinanceStandardsExplainer.explanation_prompt Run.title_ar
    Run.scenario_ar "english"
  = IslamicFinanceStandardsExplainer.explanation_prompt_ar
      (format_value Run.title_ar) (format_value Run.scenario_ar)
  /\ IslamicFinanceStandardsExplainer.feedback_prompt Run.scenario_ar
       (PStr "mine") (PStr "theirs") "english"
     = IslamicFinanceStandardsExplainer.feedback_prompt_ar
         (format_value Run.scenario_ar) "mine" "theirs"
  /\ IslamicFinanceStandardsExplainer.question_prompt (PStr "Why?") "english"
     = IslamicFinanceStandardsExplainer.question_prompt_ar "Why?"
  /\ Api.title_key "english" = "title_ar"
  /\ Api.scenario_key "english" = "scenario_ar".
Proof.
  destruct (every_other_language_is_arabic "english" "French" Run.title_ar
              Run.scenario_ar (PStr "mine") (PStr "theirs") (PStr "Why?"))
    as (_ & He & _ & Hf & _ & Hq & Ht & Hs); try discriminate.
  repeat (split; [assumption|]). assumption.
Defined.

(** *** The endpoints on concrete stores *)

Lemma refusing_client_fails_with_500 :
  Api.ask_question (CO := stdout) (GC := Corner.refusing)
    {| IslamicFinanceStandardsExplainer.ai_client :=
         {| Fixture.reply := PNone |} |}
    Fixture.db Disk.question []
  = (inl (HTTPException 500 (str_exn (RequestException "connection refused"))),
     []).
Proof.
  destruct (endpoints_fail_with_500_only Fixture.runtime stdout Fixture.stub
              Corner.refusing
              {| IslamicFinanceStandardsExplainer.ai_client :=
                   {| Fixture.reply := PNone |} |}
              Fixture.db [] (fun line => eq_refl))
    as (Hask & _).
  apply Hask. reflexivity.
Defined.


Lemma ijarah_has_no_example :
  Api.get_explanation (CO := stdout) (GC := TogetherAIClient.client Run.net)
    Fixture.explainer Fixture.db Disk.ijarah_explanation []
  = (inl (HTTPException 500
            (str_exn (HTTPException 404 "Example not found"))), [])
  /\ Api.get_feedback (CO := stdout) (GC := TogetherAIClient.client Run.net)
       Fixture.explainer Fixture.db Disk.ijarah_feedback []
     = (inl (HTTPException 500
               (str_exn (HTTPException 404 "Example not found"))), []).
Proof.
  destruct (lookup_miss_on_any_store Fixture.runtime stdout TogetherAIClient.t
              (TogetherAIClient.client Run.net) Fixture.explainer
              Fixture.db "FAS-32" [Fixture.murabaha; Fixture.ijarah]
              [Fixture.murabaha_example]
              Disk.ijarah_explanation Disk.ijarah_feedback []
              (fun line => eq_refl) eq_refl eq_refl eq_refl eq_refl)
    as (_ & Hexample).
  apply Hexample.
  - exists [Fixture.murabaha], Fixture.ijarah, []. split; [reflexivity|].
    split.
    + constructor; [|constructor].
      exists (PStr "FAS-28"). split; reflexivity.
    + exists (PStr "FAS-32"). split; reflexivity.
  - constructor; [|constructor].
    exists (PStr "FAS-28"). split; reflexivity.
Defined.

Lemma explanation_serves_503 :
  Api.get_explanation (CO := stdout) (GC := TogetherAIClient.client Run.down)
    Fixture.explainer Fixture.db Run.explanation_request []
  = (inr (PDict [("explanation", PStr ("Error: " +:+ string_of_Z 503))]),
     [] ++ [request_of Fixture.client
              (IslamicFinanceStandardsExplainer.explanation_prompt
                 Run.title_en
                 (PStr (ExplanationRequest.scenario Run.explanation_request))
                 (ExplanationRequest.language Run.explanation_request))
              2048 (5 # 10)%Q]).
Proof.
  refine (explanation_serves_upstream_failure (CO := stdout) Run.down
            Fixture.client
            Fixture.db Run.explanation_request []
            Fixture.murabaha Fixture.murabaha_example Run.title_en
            {| status_code := 503; text := "unavailable";
               json := inl (JSONDecodeError "unavailable") |}
            (fun line => eq_refl) _ _ _ _ _ _ _);
    first [reflexivity | discriminate].
Defined.

(** The explanation endpoint for FAS-28 while every call is answered with
    a completion. *)
Lemma explanation_for_murabaha_succeeds :
  (exists cause,
      Api.get_explanation (CO := stdout)
        (GC := TogetherAIClient.client Run.net)
        Fixture.explainer Fixture.db Run.explanation_request []
      = (inl (HTTPException 500 (str_exn cause)), []))
  \/ (exists explanation rq,
        Api.get_explanation (CO := stdout)
          (GC := TogetherAIClient.client Run.net)
          Fixture.explainer Fixture.db Run.explanation_request []
        = (inr (PDict [("explanation", explanation)]), [] ++ [rq])).
Proof.
  destruct (endpoints_fail_before_calling_or_succeed (CO := stdout) Run.net
              Fixture.client Fixture.db Run.explanation_request
              Run.feedback_request [] (fun line => eq_refl))
    as (Hexp & _).
  exact Hexp.
Defined.

(** *** Where the claims as worded fail *)

(** C2 as stated fails on a stdout that cannot encode the error body: the
    endpoint answers 503, the trace line with the Arabic body is refused
    inside the [try], and the call returns the text of the encoding error
    where the claim says ["Error: 503"]. *)
Lemma generate_text_loses_the_status :
  Fixture.always (inr Corner.unavailable) []
    (request_of Fixture.client "Explain Ijarah" 1024 (7 # 10)%Q)
  = inr Corner.unavailable
  /\ status_code Corner.unavailable = 503
  /\ fst (TogetherAIClient.generate_text (CO := Corner.ascii_only)
            (Fixture.always (inr Corner.unavailable))
            Fixture.client "Explain Ijarah" 1024 (7 # 10)%Q [])
     = inr (PStr "Error: 'ascii' codec can't encode characters")
  /\ PStr "Error: 'ascii' codec can't encode characters"
     <> PStr ("Error: " +:+ string_of_Z 503).
Proof.
  split; [reflexivity|]. split; [reflexivity|]. split; [reflexivity|].
  discriminate.
Qed.

(** C3 as stated fails on a stdout that cannot encode the completion: the
    body is [{"choices":[{"text": t}]}] with an Arabic [t], the trace line
    with its first characters is refused inside the [try], and the call
    returns the text of the encoding error instead of [t]. *)
Lemma generate_text_loses_the_text :
  json (Fixture.completion Corner.arabic_text)
  = inr (PDict [("choices",
                 PList [PDict [("text", PStr Corner.arabic_text)]])])
  /\ fst (TogetherAIClient.generate_text (CO := Corner.ascii_only)
            (Fixture.always (inr (Fixture.completion Corner.arabic_text)))
            Fixture.client "Explain Murabaha" 1024 (7 # 10)%Q [])
     = inr (PStr "Error: 'ascii' codec can't encode characters")
  /\ PStr "Error: 'ascii' codec can't encode characters"
     <> PStr Corner.arabic_text.
Proof.
  split; [reflexivity|]. split; [reflexivity|]. discriminate.
Qed.


Lemma feedback_prompts_for_murabaha :
  exists rq1 rq2,
    snd (Api.get_feedback (GC := TogetherAIClient.client Run.net)
           Fixture.explainer Fixture.db Run.feedback_request [])
    = [] ++ [rq1; rq2]
    /\ contains (format_value Run.title_ar) (data_prompt (req_json rq1))
    /\ contains (format_value Run.scenario_ar) (data_prompt (req_json rq1))
    /\ contains (format_value Run.scenario_ar) (data_prompt (req_json rq2))
    /\ contains (FeedbackRequest.user_solution Run.feedback_request)
         (data_prompt (req_json rq2)).
Proof.
  refine (feedback_prompts_use_stored_scenario Run.net Fixture.client
            Fixture.db Run.feedback_request []
            Fixture.murabaha Fixture.murabaha_example
            Run.title_ar Run.scenario_ar _ _ _ _ _ _);
    first [reflexivity | discriminate].
Defined.
